(** * Crypto Wallet Forensics dashboard ([ml2app.py]): model and properties

    A shallow embedding of the Streamlit script [ml2app.py].

    - A Python [str] is a sequence of Unicode code points: [pystr].
    - A Python exception is a value of [exn]; code that may raise returns a
      [result].
    - Python [float] values are modelled by real numbers: the arithmetic is
      exact, and rounding, infinities and NaN are outside the model.  The
      partiality of the operations is kept: [/] raises on a zero divisor,
      [math.log2] on a non-positive argument, [math.sqrt] on a negative one.
      Where the rounding decides, [get_features] is modelled a second time
      in binary64, on the kernel's floats: [get_features64].
    - The iteration order of a Python [set] is not specified; it is the
      parameter [SetOrder].
    - The fitted scikit-learn estimators of the pickled bundle are not part
      of the script; their [transform] and [predict] methods are fields of
      the record [ModelBundle]. *)

From Corelib Require Import PrimFloat.
From Stdlib Require Import Reals Lra Lia List ZArith NArith String Ascii Bool.
From Stdlib Require Import Permutation.
Import ListNotations.

Open Scope R_scope.

(** ** Python values *)

(** A character is its code point; [len] counts code points. *)
Definition pychar := N.
Definition pystr := list pychar.

Definition ord (c : ascii) : pychar := N_of_ascii c.

(** The [pystr] of a literal. *)
Definition str (s : string) : pystr := map ord (list_ascii_of_string s).

Definition len (s : pystr) : nat := List.length s.

(** [s.count(x)] for a one-character [x]. *)
Definition count (s : pystr) (x : pychar) : nat := count_occ N.eq_dec s x.

(** [s.startswith(prefix)]. *)
Fixpoint startswith (s prefix : pystr) {struct prefix} : bool :=
  match prefix, s with
  | [], _ => true
  | _ :: _, [] => false
  | p :: prefix', c :: s' => N.eqb c p && startswith s' prefix'
  end.

(** [a == b] on strings. *)
Fixpoint pystr_eqb (a b : pystr) : bool :=
  match a, b with
  | [], [] => true
  | x :: a', y :: b' => N.eqb x y && pystr_eqb a' b'
  | _, _ => false
  end.

(** Truth value of a string in a condition: non-empty. *)
Definition truthy (s : pystr) : bool :=
  match s with [] => false | _ :: _ => true end.

(** ** Exceptions *)

Inductive exn : Set :=
| ZeroDivisionError
| ValueError
| FileNotFoundError
| PermissionError
| UnpicklingError.

Inductive result (A : Type) : Type :=
| Ok (a : A)
| Raise (e : exn).

Arguments Ok {A} a.
Arguments Raise {A} e.

Definition bind {A B : Type} (m : result A) (k : A -> result B) : result B :=
  match m with
  | Ok a => k a
  | Raise e => Raise e
  end.

Notation "x <- m ;; k" := (bind m (fun x => k))
  (at level 61, m at next level, right associativity).

Definition exn_eqb (a b : exn) : bool :=
  match a, b with
  | ZeroDivisionError, ZeroDivisionError
  | ValueError, ValueError
  | FileNotFoundError, FileNotFoundError
  | PermissionError, PermissionError
  | UnpicklingError, UnpicklingError => true
  | _, _ => false
  end.

(** [try: m  except cls: handler]. *)
Definition try_except {A : Type} (m : result A) (cls : exn) (handler : result A)
  : result A :=
  match m with
  | Ok a => Ok a
  | Raise e => if exn_eqb e cls then handler else Raise e
  end.

(** ** Arithmetic *)

(** [a / b] on two [int]s. *)
Definition py_truediv (a b : nat) : result R :=
  match b with
  | O => Raise ZeroDivisionError
  | S _ => Ok (INR a / INR b)
  end.

(** [math.log2(x)]: a math domain error unless [x > 0]. *)
Definition math_log2 (x : R) : result R :=
  if Rlt_dec 0 x then Ok (ln x / ln 2) else Raise ValueError.

(** [math.sqrt(x)]: a math domain error when [x < 0]. *)
Definition math_sqrt (x : R) : result R :=
  if Rle_dec 0 x then Ok (sqrt x) else Raise ValueError.

(** ** Iteration over [set(address)] *)

(** An enumeration of the distinct characters of a string, each once, in an
    order the language does not fix. *)
Class SetOrder : Type := {
  set_iter : pystr -> list pychar;
  set_iter_distinct : forall s, Permutation (set_iter s) (nodup N.eq_dec s)
}.

(** One such order: by last occurrence. *)
Definition by_last_occurrence : SetOrder :=
  {| set_iter := nodup N.eq_dec;
     set_iter_distinct := fun s => Permutation_refl (nodup N.eq_dec s) |}.

(** Another: the same, backwards. *)
Definition backwards : SetOrder :=
  {| set_iter := fun s => rev (nodup N.eq_dec s);
     set_iter_distinct := fun s =>
       Permutation_sym (Permutation_rev (nodup N.eq_dec s)) |}.

(** ** Feature extraction (section 5 of the script) *)

(** The one row of the returned [DataFrame], by column. *)
Record FeatureVector : Type := {
  col_length : nat;
  col_entropy : R;
  col_chain : Z;
  col_btc_type : Z
}.

(** The body of [for x in set(address)], over the characters still to visit. *)
Fixpoint entropy_loop (address : pystr) (xs : list pychar) (entropy : R)
  : result R :=
  match xs with
  | [] => Ok entropy
  | x :: xs' =>
      p_x <- py_truediv (count address x) (len address) ;;
      l <- math_log2 p_x ;;
      entropy_loop address xs' (entropy + - p_x * l)
  end.

(** Lines 120 to 126: the code of the address type. *)
Definition btc_type_of (address : pystr) : Z :=
  if startswith address (str "1") then 0%Z
  else if startswith address (str "3") then 1%Z
  else if startswith address (str "bc1") then 2%Z
  else 3%Z.

Definition get_features `{SetOrder} (address chain_input : pystr)
  : result FeatureVector :=
  entropy <- (if truthy address
              then entropy_loop address (set_iter address) 0
              else Ok 0) ;;
  let btc_type := btc_type_of address in
  let chain_val := if pystr_eqb chain_input (str "Ethereum") then 1%Z else 0%Z in
  Ok {| col_length := len address;
        col_entropy := entropy;
        col_chain := chain_val;
        col_btc_type := btc_type |}.

(** ** The model bundle (section 4 of the script) *)

(** A row of a numpy array. *)
Definition vec := list R.

(** The unpickled dictionary, by key.  The estimators are fitted objects of
    scikit-learn; what the script uses of each is one method, a function of
    its argument.  The projector yields two components, as the unpacking
    [user_x, user_y = pca_coords[0]] requires. *)
Record ModelBundle : Type := {
  kmeans_predict : vec -> Z;
  scaler_transform : FeatureVector -> vec;
  pca_transform : vec -> R * R;
  viz_data : list (R * R * Z)
}.

(** The file [unsupervised_pack.pkl] as [open] and [pickle.load] find it.
    [Pickled None] is a pickle of [None]; a bundle dictionary has four keys
    and is true in a condition.  Unpickling runs code of the pickled
    classes: [Raising e] is a file that opens and whose unpickling raises
    [e], whatever exception [e] is. *)
Inductive artifact_file : Type :=
| Absent
| Denied
| Corrupt
| Raising (e : exn)
| Pickled (v : option ModelBundle).

(** [open('unsupervised_pack.pkl', 'rb')]. *)
Definition open_rb (disk : artifact_file) : result artifact_file :=
  match disk with
  | Absent => Raise FileNotFoundError
  | Denied => Raise PermissionError
  | Corrupt | Raising _ | Pickled _ => Ok disk
  end.

(** [pickle.load(f)]. *)
Definition pickle_load (f : artifact_file) : result (option ModelBundle) :=
  match f with
  | Pickled v => Ok v
  | Raising e => Raise e
  | Absent | Denied | Corrupt => Raise UnpicklingError
  end.

Definition load_artifacts (disk : artifact_file) : result (option ModelBundle) :=
  try_except (f <- open_rb disk ;; pickle_load f)
             FileNotFoundError
             (Ok None).

(** [@st.cache_resource]: the first call that returns stores its value for
    the life of the process, [None] included; a call that raises stores
    nothing. *)
Definition cache_resource (cache : option (option ModelBundle))
  (disk : artifact_file)
  : result (option ModelBundle) * option (option ModelBundle) :=
  match cache with
  | Some v => (Ok v, cache)
  | None =>
      match load_artifacts disk with
      | Ok v => (Ok v, Some v)
      | Raise e => (Raise e, None)
      end
  end.

(** ** The inference pipeline (section 7 of the script, the part marked Math) *)

Definition status_of (dist : R) : string :=
  if Rlt_dec dist 3 then "Normal"%string else "Anomaly"%string.

Definition color_of (dist : R) : string :=
  if Rlt_dec dist 3 then "normal"%string else "inverse"%string.

(** [dist = math.sqrt(user_x ** 2 + user_y ** 2)]. *)
Definition deviation (user_x user_y : R) : result R :=
  math_sqrt (user_x ^ 2 + user_y ^ 2).

(** What one query yields: the cluster, the 2-D coordinates, the deviation
    score and its label. *)
Record InferenceResult : Type := {
  clusterId : Z;
  coordinates : R * R;
  deviationScore : R;
  status : string
}.

(** Lines 156 to 169 without the rendering between them. *)
Definition inference (b : ModelBundle) (raw_features : FeatureVector)
  : result InferenceResult :=
  let scaled_features := scaler_transform b raw_features in
  let cluster_id := kmeans_predict b scaled_features in
  let '(user_x, user_y) := pca_transform b scaled_features in
  dist <- deviation user_x user_y ;;
  Ok {| clusterId := cluster_id;
        coordinates := (user_x, user_y);
        deviationScore := dist;
        status := status_of dist |}.

(** ** Theme (section 2 of the script) *)

(** The two values [st.session_state.theme] takes. *)
Inductive Theme : Set := Dark | Light.

Definition toggle_theme (theme : Theme) : Theme :=
  match theme with
  | Dark => Light
  | Light => Dark
  end.

Definition theme_name (theme : Theme) : string :=
  match theme with
  | Dark => "Dark"
  | Light => "Light"
  end.

Record palette : Set := {
  bg_color : string;
  card_bg : string;
  text_color : string;
  border_color : string;
  chart_template : string
}.

Definition palette_of (theme : Theme) : palette :=
  match theme with
  | Dark =>
      {| bg_color := "#0e1117";
         card_bg := "rgba(255, 255, 255, 0.05)";
         text_color := "#ffffff";
         border_color := "rgba(255, 255, 255, 0.2)";
         chart_template := "plotly_dark" |}
  | Light =>
      {| bg_color := "#ffffff";
         card_bg := "rgba(0, 0, 0, 0.05)";
         text_color := "#000000";
         border_color := "rgba(0, 0, 0, 0.1)";
         chart_template := "plotly_white" |}
  end.

(** ** What a run of the script puts on the page *)

(** The value of a metric before formatting: [f"{v:.2f}"] of a float,
    [f"{n}"] of the length, [f"#{c}"] of the cluster. *)
Inductive metric_value : Type :=
| Float2 (v : R)
| Count (n : nat)
| Group (c : Z).

(** The calls into [st], in the order the script makes them.  Pictographs
    in the texts are left out, and so is the HTML around the footer, whose
    bullet is written as a hyphen. *)
Inductive element : Type :=
| SidebarTitle (text : string)
| Button (label : string)
| Caption (text : string)
| Style (colors : palette)
| ErrorBox (text : string)
| Title (text : string)
| Markdown (text : string)
| Selectbox (label : string) (options : list string)
| TextInput (label : string)
| Heading (text : string)
| Metric (label : string) (value : metric_value) (delta delta_color : string)
| PlotlyChart (template : string) (reference : list (R * R * Z))
              (target : R * R) (hover_address : pystr) (hover_cluster : Z)
| Info (text : string)
| Footer (color : string) (text : string).

(** How a run ends: to the last line, at [st.stop()], or on an exception
    nothing catches. *)
Inductive outcome (A : Type) : Type :=
| Done (a : A)
| Stop
| Crash (e : exn).

Arguments Done {A} a.
Arguments Stop {A}.
Arguments Crash {A} e.

(** A run: what it rendered, and how it went on. *)
Definition ui (A : Type) : Type := (list element * outcome A)%type.

Definition ui_ret {A : Type} (a : A) : ui A := ([], Done a).

Definition ui_bind {A B : Type} (m : ui A) (k : A -> ui B) : ui B :=
  match m with
  | (es, Done a) => let (es', o) := k a in (es ++ es', o)
  | (es, Stop) => (es, Stop)
  | (es, Crash e) => (es, Crash e)
  end.

Notation "x <~ m ;; k" := (ui_bind m (fun x => k))
  (at level 61, m at next level, right associativity).
Notation "m >> k" := (ui_bind m (fun _ => k))
  (at level 61, right associativity).

Definition emit (e : element) : ui unit := ([e], Done tt).

Definition st_stop {A : Type} : ui A := ([], Stop).

Definition lift {A : Type} (r : result A) : ui A :=
  match r with
  | Ok a => ([], Done a)
  | Raise e => ([], Crash e)
  end.

(** The widget values of a run: the selected network, the text of the
    address field, and whether the Analyze button was just clicked. *)
Record inputs : Set := {
  chain_choice : pystr;
  user_address : pystr;
  analyze_btn : bool
}.

(** ** The script, top to bottom *)

(** The text of [st.error] in section 4. *)
Definition load_error : string :=
  " Error: `unsupervised_pack.pkl` not found. Run training script first.".

(** Section 7, inside [if user_address:].  Layout containers (columns, the
    spinner) are left out. *)
Definition results `{SetOrder} (colors : palette) (b : ModelBundle)
  (inp : inputs) : ui unit :=
  raw_features <~ lift (get_features (user_address inp) (chain_choice inp)) ;;
  let scaled_features := scaler_transform b raw_features in
  let cluster_id := kmeans_predict b scaled_features in
  let '(user_x, user_y) := pca_transform b scaled_features in
  emit (Heading "Forensic Data") >>
  emit (Metric "Entropy" (Float2 (col_entropy raw_features)) "Complexity" "normal") >>
  emit (Metric "Length" (Count (col_length raw_features)) "Chars" "normal") >>
  emit (Metric "Cluster Group" (Group cluster_id) "Match" "normal") >>
  dist <~ lift (math_sqrt (user_x ^ 2 + user_y ^ 2)) ;;
  emit (Metric "Deviation Score" (Float2 dist) (status_of dist) (color_of dist)) >>
  emit (Heading "Live Cluster Map") >>
  emit (PlotlyChart (chart_template colors) (viz_data b) (user_x, user_y)
                    (firstn 8 (user_address inp)) cluster_id).

(** Sections 2 to 7 and the footer.  [artifacts] is what the call
    [load_artifacts()] of section 4 gave in this run. *)
Definition script `{SetOrder} (theme : Theme)
  (artifacts : result (option ModelBundle)) (inp : inputs) : ui unit :=
  emit (SidebarTitle "Settings") >>
  emit (Button ("Switch to " ++ theme_name (toggle_theme theme) ++ " Mode")%string) >>
  emit (Caption ("Current Theme: **" ++ theme_name theme ++ "**")%string) >>
  let colors := palette_of theme in
  emit (Style colors) >>
  artifacts <~ lift artifacts ;;
  match artifacts with
  | None =>
      emit (ErrorBox load_error) >>
      st_stop
  | Some b =>
      emit (Title "Crypto Wallet Forensics") >>
      emit (Markdown "**Interactive Anomaly Detection System**") >>
      emit (Markdown "---") >>
      emit (Selectbox "Network" ["Bitcoin"%string; "Ethereum"%string]) >>
      emit (TextInput "Address") >>
      emit (Button "Analyze Pattern") >>
      (if analyze_btn inp
       then if truthy (user_address inp)
            then results colors b inp
            else emit (Info "Enter an address to begin.")
       else ui_ret tt) >>
      emit (Markdown "---") >>
      emit (Footer (text_color colors)
                   ("AI Forensics Tool - " ++ theme_name theme ++ " Mode Active")%string)
  end.

(** ** The process across reruns *)

(** What outlives a run: the theme in the session state and the cached
    return value of [load_artifacts]. *)
Record process : Type := {
  theme : Theme;
  cache : option (option ModelBundle)
}.

Definition fresh : process := {| theme := Dark; cache := None |}.

(** One user action: whether it was a click on the sidebar button (its
    callback [toggle_theme] runs before the script does), the widget values
    the rerun sees, and the artifact file as it is then. *)
Record interaction : Type := {
  clicked_switch : bool;
  widgets : inputs;
  on_disk : artifact_file
}.

(** One rerun of the script. *)
Definition rerun `{SetOrder} (p : process) (i : interaction)
  : process * ui unit :=
  let th := if clicked_switch i then toggle_theme (theme p) else theme p in
  let (artifacts, cache') := cache_resource (cache p) (on_disk i) in
  ({| theme := th; cache := cache' |}, script th artifacts (widgets i)).

(** The pages of a sequence of user actions. *)
Fixpoint session `{SetOrder} (p : process) (actions : list interaction)
  : list (ui unit) :=
  match actions with
  | [] => []
  | i :: rest => let (p', page) := rerun p i in page :: session p' rest
  end.

(** Whether a page shows anything the pipeline computed. *)
Definition shows_inference (e : element) : bool :=
  match e with
  | Metric _ _ _ _ | PlotlyChart _ _ _ _ _ => true
  | _ => false
  end.

(** The cluster, the coordinates and the deviation score a page shows. *)
Fixpoint shown_cluster (es : list element) : option Z :=
  match es with
  | [] => None
  | Metric _ (Group c) _ _ :: _ => Some c
  | _ :: es' => shown_cluster es'
  end.

Fixpoint shown_coordinates (es : list element) : option (R * R) :=
  match es with
  | [] => None
  | PlotlyChart _ _ xy _ _ :: _ => Some xy
  | _ :: es' => shown_coordinates es'
  end.

Fixpoint shown_deviation (es : list element) : option (R * string) :=
  match es with
  | [] => None
  | Metric "Deviation Score" (Float2 d) s _ :: _ => Some (d, s)
  | _ :: es' => shown_deviation es'
  end.

(** ** Shannon entropy, as the specification words it *)

Definition log2 (x : R) : R := ln x / ln 2.

(** [p(x) = count(x) / length]. *)
Definition frequency (s : pystr) (x : pychar) : R :=
  INR (count s x) / INR (len s).

Fixpoint Rsum (f : pychar -> R) (xs : list pychar) : R :=
  match xs with
  | [] => 0
  | x :: xs' => f x + Rsum f xs'
  end.

(** The sum over the distinct characters [x] of [- p(x) * log2 (p(x))]. *)
Definition shannon_entropy (s : pystr) : R :=
  Rsum (fun x => - frequency s x * log2 (frequency s x)) (nodup N.eq_dec s).

(** A string that is one character, repeated. *)
Definition single_repeated (s : pystr) : Prop :=
  exists c, s = repeat c (len s).

(** [s] starts with [prefix]. *)
Definition starts_with (s prefix : pystr) : Prop :=
  exists rest, s = prefix ++ rest.

(** ** Readings of a page *)

Definition is_metric (e : element) : bool :=
  match e with
  | Metric _ _ _ _ => true
  | _ => false
  end.

(** The metrics of a page, in order. *)
Definition metrics (page : ui unit) : list element :=
  filter is_metric (fst page).

(** The cluster, the coordinates and the deviation score with its status,
    as a page shows them. *)
Definition shown (page : ui unit)
  : option Z * option (R * R) * option (R * string) :=
  (shown_cluster (fst page), shown_coordinates (fst page),
   shown_deviation (fst page)).

(** The same user action, with and without the click on the sidebar
    button. *)
Definition with_switch (click : bool) (i : interaction) : interaction :=
  {| clicked_switch := click; widgets := widgets i; on_disk := on_disk i |}.

(** The same user action, with the artifact file in another state. *)
Definition with_disk (disk : artifact_file) (i : interaction) : interaction :=
  {| clicked_switch := clicked_switch i; widgets := widgets i; on_disk := disk |}.

(** A page that shows the load error, ended at [st.stop()] and shows
    nothing of the pipeline. *)
Definition halted (page : ui unit) : Prop :=
  snd page = Stop /\
  In (ErrorBox load_error) (fst page) /\
  existsb shows_inference (fst page) = false.

(** A page whose run died on the exception [e] and shows nothing of the
    pipeline. *)
Definition crashed (e : exn) (page : ui unit) : Prop :=
  snd page = Crash e /\ existsb shows_inference (fst page) = false.

(** The artifact file is missing, or it is there and cannot be read. *)
Definition absent_or_unreadable (disk : artifact_file) : Prop :=
  match disk with
  | Absent | Denied | Corrupt | Raising _ => True
  | Pickled _ => False
  end.

(** ** Sample data *)

Definition boat_address : pystr := str "1BoatSLRHtKNngkdXEeobR76b53LETtpyT".
Definition genesis_address : pystr := str "1A1zP1eP5QGefi2DMPTfTL5SLmv7DivfNa".
Definition p2sh_address : pystr := str "3J98t1WpEZ73CNmQviecrnyiWrnqRhWNLy".
Definition bech32_address : pystr := str "bc1qxy2kgdygjrsqtzq2n0yrf2493p83kkfjhx0wlh".
Definition eth_address : pystr := str "0x52908400098527886E0F7030069857D2E4169EE7".

(** The row of the first of them on "Bitcoin". *)
Definition boat_row : FeatureVector :=
  {| col_length := 34;
     col_entropy := shannon_entropy boat_address;
     col_chain := 0;
     col_btc_type := 0 |}.

(** The query for it, with the Analyze button clicked. *)
Definition boat_query : inputs :=
  {| chain_choice := str "Bitcoin";
     user_address := boat_address;
     analyze_btn := true |}.

(** That query as a user action, with the artifact file in a given state. *)
Definition visit (disk : artifact_file) : interaction :=
  {| clicked_switch := false; widgets := boat_query; on_disk := disk |}.

(** A bundle to run the pipeline on: the scaler keeps the row as it is, the
    clusterer puts the Bitcoin address types in cluster 0 and the rest in
    cluster 1, the projector keeps the first two columns. *)
Definition sample_bundle : ModelBundle :=
  {| kmeans_predict := fun v => if Rlt_dec (nth 3 v 0) 3 then 0%Z else 1%Z;
     scaler_transform := fun fv =>
       [INR (col_length fv); col_entropy fv;
        IZR (col_chain fv); IZR (col_btc_type fv)];
     pca_transform := fun v => (nth 0 v 0, nth 1 v 0);
     viz_data := [(0, 0, 0%Z); (1, 2, 1%Z)] |}.

(** ** Further readings of strings, pages and sessions *)

(** The process a sequence of user actions leaves behind. *)
Fixpoint run_all `{SetOrder} (p : process) (actions : list interaction)
  : process :=
  match actions with
  | [] => p
  | i :: rest => run_all (fst (rerun p i)) rest
  end.

(** How many of the actions are clicks on the sidebar button. *)
Definition clicks (actions : list interaction) : nat :=
  List.length (filter clicked_switch actions).


(** A page that ran to the last line of the script. *)
Definition completed (th : Theme) (page : ui unit) : Prop :=
  snd page = Done tt /\
  last (fst page) (Markdown "") =
  Footer (text_color (palette_of th))
         ("AI Forensics Tool - " ++ theme_name th ++ " Mode Active")%string.

(** ** Feature extraction in binary64 *)

(** [float(n)] for an [int] [n >= 0]: exact below 2^53. *)
Fixpoint float_of_pos (p : positive) : float :=
  match p with
  | xH => 1%float
  | xO q => (2 * float_of_pos q)%float
  | xI q => (2 * float_of_pos q + 1)%float
  end.

Definition float_of_int (n : nat) : float :=
  match N.of_nat n with
  | N0 => 0%float
  | Npos p => float_of_pos p
  end.

(** [a / b] on two [int]s.  Python rounds the exact quotient once; for
    ints below 2^53, which the counts and the length of a string in memory
    are, that is the quotient of the two floats. *)
Definition py_truediv64 (a b : nat) : result float :=
  match b with
  | O => Raise ZeroDivisionError
  | S _ => Ok (float_of_int a / float_of_int b)%float
  end.

(** [math.log2(x)]: a math domain error when [x <= 0]; otherwise what the
    logarithm [lg] of the C library returns (NaN for NaN). *)
Definition math_log2_64 (lg : float -> float) (x : float) : result float :=
  if PrimFloat.leb x 0%float then Raise ValueError else Ok (lg x).

(** The row, with the entropy as the float it is. *)
Record FeatureVector64 : Set := {
  col_length64 : nat;
  col_entropy64 : float;
  col_chain64 : Z;
  col_btc_type64 : Z
}.

Fixpoint entropy_loop64 (lg : float -> float) (address : pystr)
  (xs : list pychar) (entropy : float) : result float :=
  match xs with
  | [] => Ok entropy
  | x :: xs' =>
      p_x <- py_truediv64 (count address x) (len address) ;;
      l <- math_log2_64 lg p_x ;;
      entropy_loop64 lg address xs' (entropy + - p_x * l)%float
  end.

Definition get_features64 (lg : float -> float) `{SetOrder}
  (address chain_input : pystr) : result FeatureVector64 :=
  entropy <- (if truthy address
              then entropy_loop64 lg address (set_iter address) 0%float
              else Ok 0%float) ;;
  let btc_type := btc_type_of address in
  let chain_val := if pystr_eqb chain_input (str "Ethereum") then 1%Z else 0%Z in
  Ok {| col_length64 := len address;
        col_entropy64 := entropy;
        col_chain64 := chain_val;
        col_btc_type64 := btc_type |}.

(** [p_x] for a character of the address. *)
Definition quotient64 (address : pystr) (x : pychar) : float :=
  (float_of_int (count address x) / float_of_int (len address))%float.

(** The terms the loop adds, in the order in which it adds them. *)
Definition terms64 (lg : float -> float) `{SetOrder} (address : pystr)
  : list float :=
  map (fun x => (- quotient64 address x * lg (quotient64 address x))%float)
      (set_iter address).

(** [entropy = 0] and then [entropy += t] for each term, left to right. *)
Definition fsum (ts : list float) : float :=
  fold_left PrimFloat.add ts 0%float.

(** [math.log2] does not raise on [q]. *)
Definition positive64 (q : float) : bool := negb (PrimFloat.leb q 0%float).

(** [math.log2] at the two arguments the sample addresses below need, 1/2
    and the float nearest to 1/6: the correctly rounded values, -1 and
    -2.584962500721156.  NaN elsewhere. *)
Definition log2_at_samples (x : float) : float :=
  if PrimFloat.eqb x 0x1p-1%float then (-1)%float
  else if PrimFloat.eqb x 0x1.5555555555555p-3%float
       then (-0x1.4ae00d1cfdeb4p+1)%float
       else nan.

(** ** Lemmas on sums and logarithms *)

Lemma ln2_pos : 0 < ln 2.
Proof.
  rewrite <- ln_1. apply ln_increasing; lra.
Qed.

Lemma log2_nonpos (q : R) : 0 < q -> q <= 1 -> log2 q <= 0.
Proof.
  intros Hq Hle. unfold log2.
  assert (Hln : ln q <= 0).
  { destruct Hle as [Hlt | ->].
    - left. rewrite <- ln_1. now apply ln_increasing.
    - rewrite ln_1. lra. }
  pose proof ln2_pos as H2.
  unfold Rdiv. rewrite <- (Rmult_0_l (/ ln 2)).
  apply Rmult_le_compat_r; [left; now apply Rinv_0_lt_compat | exact Hln].
Qed.

Lemma log2_zero (q : R) : 0 < q -> log2 q = 0 -> q = 1.
Proof.
  intros Hq H0. unfold log2 in H0.
  pose proof ln2_pos as H2.
  apply ln_inv; [exact Hq | lra |].
  rewrite ln_1.
  apply (Rmult_eq_reg_r (/ ln 2)).
  - rewrite Rmult_0_l. exact H0.
  - apply Rinv_neq_0_compat. lra.
Qed.

Lemma term_nonneg (q : R) : 0 < q -> q <= 1 -> 0 <= - q * log2 q.
Proof.
  intros Hq Hle. pose proof (log2_nonpos q Hq Hle). nra.
Qed.

Lemma term_zero (q : R) : 0 < q -> - q * log2 q = 0 -> q = 1.
Proof.
  intros Hq H0. apply log2_zero; [exact Hq|].
  destruct (Rmult_integral _ _ H0) as [Hz | Hz]; [lra | exact Hz].
Qed.

Lemma Rsum_perm (f : pychar -> R) (xs ys : list pychar) :
  Permutation xs ys -> Rsum f xs = Rsum f ys.
Proof.
  induction 1 as [| x l l' _ IH | x y l | l l' l'' _ IH1 _ IH2]; simpl.
  - reflexivity.
  - now rewrite IH.
  - lra.
  - now rewrite IH1.
Qed.

Lemma Rsum_ext (f g : pychar -> R) (xs : list pychar) :
  (forall x, In x xs -> f x = g x) -> Rsum f xs = Rsum g xs.
Proof.
  induction xs as [| x xs IH]; simpl; intros Hfg.
  - reflexivity.
  - rewrite (Hfg x) by now left. rewrite IH; [reflexivity|].
    intros y Hy. apply Hfg. now right.
Qed.

Lemma Rsum_nonneg (f : pychar -> R) (xs : list pychar) :
  (forall x, In x xs -> 0 <= f x) -> 0 <= Rsum f xs.
Proof.
  induction xs as [| x xs IH]; simpl; intros Hf.
  - lra.
  - assert (0 <= f x) by (apply Hf; now left).
    assert (0 <= Rsum f xs) by (apply IH; intros y Hy; apply Hf; now right).
    lra.
Qed.

Lemma Rsum_zero_inv (f : pychar -> R) (xs : list pychar) :
  (forall x, In x xs -> 0 <= f x) -> Rsum f xs = 0 ->
  forall x, In x xs -> f x = 0.
Proof.
  induction xs as [| y xs IH]; simpl; intros Hf Hsum x Hx.
  - contradiction.
  - assert (Hy : 0 <= f y) by (apply Hf; now left).
    assert (Hrest : 0 <= Rsum f xs).
    { apply Rsum_nonneg. intros z Hz. apply Hf. now right. }
    destruct Hx as [-> | Hx].
    + lra.
    + apply IH; [intros z Hz; apply Hf; now right | lra | exact Hx].
Qed.

Lemma Rsum_all_zero (f : pychar -> R) (xs : list pychar) :
  (forall x, In x xs -> f x = 0) -> Rsum f xs = 0.
Proof.
  induction xs as [| y xs IH]; simpl; intros Hf.
  - reflexivity.
  - rewrite (Hf y) by now left. rewrite IH; [lra|].
    intros z Hz. apply Hf. now right.
Qed.

(** ** Lemmas on character frequencies *)

Lemma len_pos (s : pystr) : s <> [] -> 0 < INR (len s).
Proof.
  intros Hs. destruct s as [| c s]; [congruence|].
  unfold len. apply lt_0_INR. simpl. lia.
Qed.

Lemma frequency_pos (s : pystr) (x : pychar) : In x s -> 0 < frequency s x.
Proof.
  intros Hx. unfold frequency.
  assert (Hs : s <> []) by (intros ->; contradiction).
  apply Rdiv_lt_0_compat; [| now apply len_pos].
  apply lt_0_INR. unfold count.
  now apply (count_occ_In N.eq_dec) in Hx.
Qed.

Lemma frequency_le_1 (s : pystr) (x : pychar) : s <> [] -> frequency s x <= 1.
Proof.
  intros Hs. unfold frequency.
  pose proof (len_pos s Hs) as Hl.
  apply (Rmult_le_reg_r (INR (len s))); [exact Hl|].
  unfold Rdiv. rewrite Rmult_assoc, Rinv_l, Rmult_1_r, Rmult_1_l by lra.
  apply le_INR. unfold count, len. apply count_occ_bound.
Qed.

Lemma frequency_one (s : pystr) (x : pychar) :
  s <> [] -> (frequency s x = 1 <-> count s x = len s).
Proof.
  intros Hs. unfold frequency.
  pose proof (len_pos s Hs) as Hl. split.
  - intros H1. apply INR_eq.
    apply (Rmult_eq_compat_r (INR (len s))) in H1.
    unfold Rdiv in H1.
    rewrite Rmult_assoc, Rinv_l, Rmult_1_r, Rmult_1_l in H1 by lra.
    exact H1.
  - intros ->. unfold Rdiv. apply Rinv_r. lra.
Qed.

Lemma count_perm (s t : pystr) (x : pychar) :
  Permutation s t -> count s x = count t x.
Proof.
  intros Hp. unfold count.
  now apply (Permutation_count_occ N.eq_dec).
Qed.

Lemma len_perm (s t : pystr) : Permutation s t -> len s = len t.
Proof. unfold len. apply Permutation_length. Qed.

Lemma nodup_perm (s t : pystr) :
  Permutation s t -> Permutation (nodup N.eq_dec s) (nodup N.eq_dec t).
Proof.
  intros Hp. apply NoDup_Permutation; try apply NoDup_nodup.
  intros x. rewrite !nodup_In. split; intros Hx.
  - now apply (Permutation_in x Hp).
  - now apply (Permutation_in x (Permutation_sym Hp)).
Qed.

(** ** The loop of [get_features] *)

Lemma py_truediv_ok (a b : nat) :
  b <> O -> py_truediv a b = Ok (INR a / INR b).
Proof.
  destruct b as [| b]; [congruence | reflexivity].
Qed.

Lemma math_log2_ok (x : R) : 0 < x -> math_log2 x = Ok (log2 x).
Proof.
  intros Hx. unfold math_log2, log2.
  destruct (Rlt_dec 0 x) as [_ | Hn]; [reflexivity | contradiction].
Qed.

Lemma math_sqrt_ok (x : R) : 0 <= x -> math_sqrt x = Ok (sqrt x).
Proof.
  intros Hx. unfold math_sqrt.
  destruct (Rle_dec 0 x) as [_ | Hn]; [reflexivity | contradiction].
Qed.

(** Over characters of the string the loop never raises, and it adds one
    term of the entropy for each. *)
Lemma entropy_loop_ok (address : pystr) (xs : list pychar) :
  (forall x, In x xs -> In x address) ->
  forall entropy,
    entropy_loop address xs entropy =
    Ok (entropy
        + Rsum (fun x => - frequency address x * log2 (frequency address x)) xs).
Proof.
  induction xs as [| x xs IH]; intros Hin entropy; simpl.
  - f_equal. lra.
  - assert (Hx : In x address) by (apply Hin; now left).
    assert (Hne : len address <> O).
    { destruct address; [contradiction | discriminate]. }
    rewrite py_truediv_ok by exact Hne. simpl.
    fold (frequency address x).
    rewrite math_log2_ok by now apply frequency_pos. simpl.
    rewrite IH by (intros y Hy; apply Hin; now right).
    f_equal. lra.
Qed.

Lemma set_iter_In `{SetOrder} (s : pystr) (x : pychar) :
  In x (set_iter s) -> In x s.
Proof.
  intros Hx. apply (nodup_In N.eq_dec).
  exact (Permutation_in x (set_iter_distinct s) Hx).
Qed.

(** [get_features] returns for every input, and this is its row. *)
Lemma get_features_row `{SetOrder} (address chain_input : pystr) :
  get_features address chain_input =
  Ok {| col_length := len address;
        col_entropy := shannon_entropy address;
        col_chain := if pystr_eqb chain_input (str "Ethereum") then 1%Z else 0%Z;
        col_btc_type := btc_type_of address |}.
Proof.
  unfold get_features.
  assert (Hloop : (if truthy address
                   then entropy_loop address (set_iter address) 0
                   else Ok 0) = Ok (shannon_entropy address)).
  { destruct (truthy address) eqn:Ht.
    - rewrite entropy_loop_ok by apply set_iter_In.
      f_equal. rewrite Rplus_0_l.
      unfold shannon_entropy. apply Rsum_perm, set_iter_distinct.
    - destruct address; [reflexivity | discriminate]. }
  rewrite Hloop. reflexivity.
Qed.

Lemma shannon_nonneg (s : pystr) : 0 <= shannon_entropy s.
Proof.
  unfold shannon_entropy. apply Rsum_nonneg. intros x Hx.
  apply nodup_In in Hx.
  assert (Hs : s <> []) by (intros ->; contradiction).
  apply term_nonneg; [now apply frequency_pos | now apply frequency_le_1].
Qed.

Lemma shannon_zero_iff (s : pystr) :
  s <> [] -> (shannon_entropy s = 0 <-> single_repeated s).
Proof.
  intros Hs. unfold shannon_entropy, single_repeated. split.
  - intros H0. destruct s as [| c s'] eqn:E; [congruence|]. rewrite <- E in *.
    exists c. apply (count_occ_unique N.eq_dec).
    assert (Hc : In c s) by (rewrite E; now left).
    apply (frequency_one s c Hs).
    apply term_zero; [now apply frequency_pos|].
    refine (Rsum_zero_inv (fun x => - frequency s x * log2 (frequency s x))
              (nodup N.eq_dec s) _ H0 c _); [| now apply nodup_In].
    intros x Hx. apply nodup_In in Hx.
    apply term_nonneg; [now apply frequency_pos | now apply frequency_le_1].
  - intros [c Hc]. apply Rsum_all_zero. intros x Hx. apply nodup_In in Hx.
    assert (Hxc : x = c).
    { rewrite Hc in Hx. now apply repeat_spec in Hx. }
    subst x.
    assert (H1 : frequency s c = 1).
    { apply (frequency_one s c Hs). unfold count.
      rewrite Hc at 1. now apply count_occ_repeat_eq. }
    rewrite H1. unfold log2. rewrite ln_1. lra.
Qed.

(** ** Prefixes *)

Lemma startswith_spec (s prefix : pystr) :
  startswith s prefix = true <-> starts_with s prefix.
Proof.
  unfold starts_with. revert s.
  induction prefix as [| p prefix IH]; intros s; simpl.
  - split; [intros _; now exists s | reflexivity].
  - destruct s as [| c s].
    + split; [discriminate | intros [rest Hr]; discriminate].
    + rewrite andb_true_iff, N.eqb_eq, IH. split.
      * intros [-> [rest ->]]. now exists rest.
      * intros [rest Hr]. injection Hr as -> ->. split; [reflexivity | now exists rest].
Qed.

Lemma startswith_firstn (s prefix : pystr) :
  startswith s prefix = startswith (firstn (List.length prefix) s) prefix.
Proof.
  revert s. induction prefix as [| p prefix IH]; intros s; simpl.
  - reflexivity.
  - destruct s as [| c s]; simpl; [reflexivity | now rewrite <- IH].
Qed.

(** The four cases of the address type. *)
Lemma btc_type_of_legacy (a : pystr) :
  starts_with a (str "1") -> btc_type_of a = 0%Z.
Proof. intros [rest ->]. reflexivity. Qed.

Lemma btc_type_of_script (a : pystr) :
  starts_with a (str "3") -> btc_type_of a = 1%Z.
Proof. intros [rest ->]. reflexivity. Qed.

Lemma btc_type_of_segwit (a : pystr) :
  starts_with a (str "bc1") -> btc_type_of a = 2%Z.
Proof. intros [rest ->]. reflexivity. Qed.

Lemma btc_type_of_other (a : pystr) :
  ~ starts_with a (str "1") ->
  ~ starts_with a (str "3") ->
  ~ starts_with a (str "bc1") ->
  btc_type_of a = 3%Z.
Proof.
  intros H1 H3 Hbc. unfold btc_type_of.
  destruct (startswith a (str "1")) eqn:E1.
  { apply startswith_spec in E1. contradiction. }
  destruct (startswith a (str "3")) eqn:E3.
  { apply startswith_spec in E3. contradiction. }
  destruct (startswith a (str "bc1")) eqn:Ebc.
  { apply startswith_spec in Ebc. contradiction. }
  reflexivity.
Qed.

(** The address type is read off the first three characters. *)
Lemma btc_type_firstn (a a' : pystr) :
  firstn 3 a' = firstn 3 a -> btc_type_of a' = btc_type_of a.
Proof.
  intros H3.
  assert (H1 : firstn 1 a' = firstn 1 a).
  { destruct a' as [| x1 a'], a as [| y1 a]; simpl in *; congruence. }
  unfold btc_type_of.
  rewrite (startswith_firstn a' (str "1")), (startswith_firstn a (str "1")).
  rewrite (startswith_firstn a' (str "3")), (startswith_firstn a (str "3")).
  rewrite (startswith_firstn a' (str "bc1")), (startswith_firstn a (str "bc1")).
  change (List.length (str "1")) with 1%nat.
  change (List.length (str "3")) with 1%nat.
  change (List.length (str "bc1")) with 3%nat.
  now rewrite H1, H3.
Qed.

(** ** The pipeline *)

Lemma squares_nonneg (x y : R) : 0 <= x ^ 2 + y ^ 2.
Proof.
  pose proof (pow2_ge_0 x). pose proof (pow2_ge_0 y). lra.
Qed.

Lemma deviation_ok (x y : R) : deviation x y = Ok (sqrt (x ^ 2 + y ^ 2)).
Proof.
  unfold deviation. apply math_sqrt_ok, squares_nonneg.
Qed.

Lemma status_anomaly (d : R) : status_of d = "Anomaly"%string <-> d >= 3.
Proof.
  unfold status_of. destruct (Rlt_dec d 3) as [Hlt | Hge]; split.
  - discriminate.
  - intros Hd. lra.
  - intros _. lra.
  - reflexivity.
Qed.

Lemma status_normal (d : R) : status_of d = "Normal"%string <-> d < 3.
Proof.
  unfold status_of. destruct (Rlt_dec d 3) as [Hlt | Hge]; split.
  - intros _. exact Hlt.
  - reflexivity.
  - discriminate.
  - intros Hd. contradiction.
Qed.

(** The pipeline returns for every bundle and every row. *)
Lemma inference_ok (b : ModelBundle) (fv : FeatureVector) :
  inference b fv =
  Ok {| clusterId := kmeans_predict b (scaler_transform b fv);
        coordinates := pca_transform b (scaler_transform b fv);
        deviationScore := sqrt (fst (pca_transform b (scaler_transform b fv)) ^ 2
                      + snd (pca_transform b (scaler_transform b fv)) ^ 2);
        status := status_of
                    (sqrt (fst (pca_transform b (scaler_transform b fv)) ^ 2
                           + snd (pca_transform b (scaler_transform b fv)) ^ 2)) |}.
Proof.
  unfold inference.
  destruct (pca_transform b (scaler_transform b fv)) as [x y]. simpl fst. simpl snd.
  now rewrite deviation_ok.
Qed.

(** The page of the results block, given the row of the query. *)
Lemma results_page `{SetOrder} (colors : palette) (b : ModelBundle)
  (inp : inputs) (fv : FeatureVector) :
  get_features (user_address inp) (chain_choice inp) = Ok fv ->
  forall r, inference b fv = Ok r ->
  results colors b inp =
  ([Heading "Forensic Data";
    Metric "Entropy" (Float2 (col_entropy fv)) "Complexity" "normal";
    Metric "Length" (Count (col_length fv)) "Chars" "normal";
    Metric "Cluster Group" (Group (clusterId r)) "Match" "normal";
    Metric "Deviation Score" (Float2 (deviationScore r)) (status r) (color_of (deviationScore r));
    Heading "Live Cluster Map";
    PlotlyChart (chart_template colors) (viz_data b) (coordinates r)
                (firstn 8 (user_address inp)) (clusterId r)],
   Done tt).
Proof.
  intros Hfv r Hr. rewrite inference_ok in Hr. injection Hr as <-.
  unfold results. rewrite Hfv. simpl.
  destruct (pca_transform b (scaler_transform b fv)) as [x y]. simpl.
  rewrite math_sqrt_ok by apply squares_nonneg. reflexivity.
Qed.

(** The page of a run with the bundle loaded, the Analyze button clicked
    and an address in the field. *)
Lemma script_analyzed `{SetOrder} (th : Theme) (b : ModelBundle)
  (inp : inputs) (fv : FeatureVector) (r : InferenceResult) :
  analyze_btn inp = true ->
  truthy (user_address inp) = true ->
  get_features (user_address inp) (chain_choice inp) = Ok fv ->
  inference b fv = Ok r ->
  script th (Ok (Some b)) inp =
  ([SidebarTitle "Settings";
    Button ("Switch to " ++ theme_name (toggle_theme th) ++ " Mode")%string;
    Caption ("Current Theme: **" ++ theme_name th ++ "**")%string;
    Style (palette_of th);
    Title "Crypto Wallet Forensics";
    Markdown "**Interactive Anomaly Detection System**";
    Markdown "---";
    Selectbox "Network" ["Bitcoin"%string; "Ethereum"%string];
    TextInput "Address";
    Button "Analyze Pattern";
    Heading "Forensic Data";
    Metric "Entropy" (Float2 (col_entropy fv)) "Complexity" "normal";
    Metric "Length" (Count (col_length fv)) "Chars" "normal";
    Metric "Cluster Group" (Group (clusterId r)) "Match" "normal";
    Metric "Deviation Score" (Float2 (deviationScore r)) (status r) (color_of (deviationScore r));
    Heading "Live Cluster Map";
    PlotlyChart (chart_template (palette_of th)) (viz_data b) (coordinates r)
                (firstn 8 (user_address inp)) (clusterId r);
    Markdown "---";
    Footer (text_color (palette_of th))
           ("AI Forensics Tool - " ++ theme_name th ++ " Mode Active")%string],
   Done tt).
Proof.
  intros Hbtn Haddr Hfv Hr.
  unfold script, lift, emit. rewrite Hbtn, Haddr. cbn [ui_bind].
  rewrite (results_page (palette_of th) b inp fv Hfv r Hr).
  reflexivity.
Qed.

(** The entropy of the sample address, term by term: nineteen characters
    occur once, six twice and one three times. *)
Lemma boat_entropy_value :
  shannon_entropy boat_address =
  19 * (- (1 / 34) * log2 (1 / 34))
  + 6 * (- (2 / 34) * log2 (2 / 34))
  + - (3 / 34) * log2 (3 / 34).
Proof.
  unfold shannon_entropy.
  let l := eval vm_compute in (nodup N.eq_dec boat_address) in
  change (nodup N.eq_dec boat_address) with l.
  cbn [Rsum]. unfold frequency.
  repeat match goal with
  | |- context [count boat_address ?x] =>
      let n := eval vm_compute in (count boat_address x) in
      change (count boat_address x) with n
  end.
  change (len boat_address) with 34%nat.
  rewrite !INR_IZR_INZ. simpl Z.of_nat.
  lra.
Qed.

(** ** Theme and load failures across reruns *)

(** What a run computes and how it ends is the same under any two themes. *)
Lemma script_any_theme `{SetOrder} (th1 th2 : Theme)
  (artifacts : result (option ModelBundle)) (inp : inputs) :
  snd (script th1 artifacts inp) = snd (script th2 artifacts inp) /\
  metrics (script th1 artifacts inp) = metrics (script th2 artifacts inp) /\
  shown (script th1 artifacts inp) = shown (script th2 artifacts inp).
Proof.
  destruct artifacts as [[b |] | e]; [| repeat split | repeat split].
  destruct (analyze_btn inp) eqn:Hbtn.
  - destruct (truthy (user_address inp)) eqn:Haddr.
    + rewrite (script_analyzed th1 b inp _ _ Hbtn Haddr
                 (get_features_row _ _) (inference_ok b _)).
      rewrite (script_analyzed th2 b inp _ _ Hbtn Haddr
                 (get_features_row _ _) (inference_ok b _)).
      repeat split.
    + unfold script, lift, emit. rewrite Hbtn, Haddr. repeat split.
  - unfold script, lift, emit. rewrite Hbtn. repeat split.
Qed.

Lemma script_none_halted `{SetOrder} (th : Theme) (inp : inputs) :
  halted (script th (Ok None) inp).
Proof.
  split; [reflexivity|]. split; [| reflexivity].
  simpl. do 4 right. now left.
Qed.

Lemma script_raise_crashed `{SetOrder} (th : Theme) (e : exn) (inp : inputs) :
  crashed e (script th (Raise e) inp).
Proof. split; reflexivity. Qed.

(** Once [None] is cached every run halts. *)
Lemma session_cached_none `{SetOrder} (actions : list interaction) :
  forall th, Forall halted (session {| theme := th; cache := Some None |} actions).
Proof.
  induction actions as [| i rest IH]; intros th; simpl.
  - constructor.
  - constructor; [apply script_none_halted | apply IH].
Qed.

(** A page shows a metric or the chart only when a bundle is loaded. *)
Lemma inference_needs_bundle `{SetOrder} (th : Theme)
  (artifacts : result (option ModelBundle)) (inp : inputs) :
  existsb shows_inference (fst (script th artifacts inp)) = true ->
  exists b, artifacts = Ok (Some b).
Proof.
  destruct artifacts as [[b |] | e]; intros Hshow.
  - now exists b.
  - discriminate.
  - discriminate.
Qed.

(** ** The loop in binary64 *)

(** In exact arithmetic two rearrangements of one address get the same
    entropy and the same length. *)
Lemma exact_entropy_permutation (O1 O2 : SetOrder)
  (address1 address2 chain1 chain2 : pystr) :
  Permutation address1 address2 ->
  exists fv1 fv2,
    @get_features O1 address1 chain1 = Ok fv1 /\
    @get_features O2 address2 chain2 = Ok fv2 /\
    col_entropy fv1 = col_entropy fv2 /\
    col_length fv1 = col_length fv2.
Proof.
  intros Hp. do 2 eexists.
  split; [apply get_features_row|]. split; [apply get_features_row|]. simpl.
  split; [| now apply len_perm].
  unfold shannon_entropy.
  rewrite (Rsum_perm _ _ _ (nodup_perm _ _ Hp)).
  apply Rsum_ext. intros x _. unfold frequency.
  now rewrite (count_perm _ _ x Hp), (len_perm _ _ Hp).
Qed.

Lemma forallb_perm {A : Type} (f : A -> bool) (l l' : list A) :
  Permutation l l' -> forallb f l = forallb f l'.
Proof.
  induction 1 as [| x l l' _ IH | x y l | l l' l'' _ IH1 _ IH2]; simpl.
  - reflexivity.
  - now rewrite IH.
  - destruct (f x), (f y); reflexivity.
  - now rewrite IH1.
Qed.

(** On a non-empty address the loop raises [ValueError] at the first
    quotient that is not positive, and otherwise adds one term for each
    character, left to right. *)
Lemma entropy_loop64_spec (lg : float -> float) (address : pystr)
  (xs : list pychar) :
  address <> [] ->
  forall entropy,
    entropy_loop64 lg address xs entropy =
    if forallb positive64 (map (quotient64 address) xs)
    then Ok (fold_left PrimFloat.add
               (map (fun x => (- quotient64 address x
                               * lg (quotient64 address x))%float) xs)
               entropy)
    else Raise ValueError.
Proof.
  intros Hne. induction xs as [| x xs IH]; intros entropy.
  - reflexivity.
  - assert (Hlen : exists n, len address = S n).
    { destruct address as [| c a]; [congruence | now exists (List.length a)]. }
    destruct Hlen as [n Hn]. cbn [entropy_loop64 map forallb fold_left].
    unfold py_truediv64. rewrite Hn. cbn [bind]. rewrite <- Hn.
    fold (quotient64 address x).
    unfold math_log2_64, positive64.
    destruct (PrimFloat.leb (quotient64 address x) 0); cbn [bind negb andb].
    + reflexivity.
    + apply IH.
Qed.

(** The outcome of [get_features64], for every input. *)
Lemma get_features64_spec (lg : float -> float) `{SetOrder}
  (address chain_input : pystr) :
  get_features64 lg address chain_input =
  if forallb positive64 (map (quotient64 address) (set_iter address))
  then Ok {| col_length64 := len address;
             col_entropy64 := fsum (terms64 lg address);
             col_chain64 := if pystr_eqb chain_input (str "Ethereum")
                            then 1%Z else 0%Z;
             col_btc_type64 := btc_type_of address |}
  else Raise ValueError.
Proof.
  unfold get_features64, fsum, terms64. destruct address as [| c a].
  - assert (Hnil : set_iter [] = []).
    { apply Permutation_nil, Permutation_sym. exact (set_iter_distinct []). }
    rewrite Hnil. reflexivity.
  - cbn [truthy]. rewrite entropy_loop64_spec by discriminate.
    destruct (forallb positive64
                (map (quotient64 (c :: a)) (set_iter (c :: a)))); reflexivity.
Qed.

(** The quotient of two ints from 1 to 256, the smaller over the larger,
    is a positive float: checked on every pair. *)
Lemma quotients_positive_upto_256 :
  forallb (fun b => forallb (fun a => positive64
                                        (float_of_int a / float_of_int b)%float)
                            (seq 1 b))
          (seq 1 256) = true.
Proof. vm_compute. reflexivity. Qed.

Lemma quotient64_positive (address : pystr) (x : pychar) :
  In x address -> (len address <= 256)%nat ->
  positive64 (quotient64 address x) = true.
Proof.
  intros Hx Hlen.
  pose proof quotients_positive_upto_256 as Hall.
  rewrite forallb_forall in Hall.
  assert (Hc : (1 <= count address x)%nat).
  { unfold count. apply (count_occ_In N.eq_dec) in Hx. lia. }
  assert (Hb : (count address x <= len address)%nat).
  { unfold count, len. apply count_occ_bound. }
  assert (Hin : In (len address) (seq 1 256)) by (apply in_seq; lia).
  specialize (Hall (len address) Hin).
  rewrite forallb_forall in Hall.
  apply (Hall (count address x)). apply in_seq. lia.
Qed.

Lemma quotients64_positive `{SetOrder} (address : pystr) :
  (len address <= 256)%nat ->
  forallb positive64 (map (quotient64 address) (set_iter address)) = true.
Proof.
  intros Hlen. apply forallb_forall. intros q Hq.
  apply in_map_iff in Hq as (x & <- & Hx).
  apply quotient64_positive; [now apply set_iter_In | exact Hlen].
Qed.

(** Two calls whose quotients are the same up to their order end alike:
    both raise [ValueError], or both return and add the same terms. *)
Lemma get_features64_alike (lg : float -> float) (O1 O2 : SetOrder)
  (address1 address2 chain1 chain2 : pystr) :
  len address1 = len address2 ->
  Permutation (map (quotient64 address1) (@set_iter O1 address1))
              (map (quotient64 address2) (@set_iter O2 address2)) ->
  ((exists fv1 fv2,
       @get_features64 lg O1 address1 chain1 = Ok fv1 /\
       @get_features64 lg O2 address2 chain2 = Ok fv2 /\
       col_length64 fv1 = col_length64 fv2 /\
       col_entropy64 fv1 = fsum (@terms64 lg O1 address1) /\
       col_entropy64 fv2 = fsum (@terms64 lg O2 address2) /\
       Permutation (@terms64 lg O1 address1) (@terms64 lg O2 address2)) \/
   (@get_features64 lg O1 address1 chain1 = Raise ValueError /\
    @get_features64 lg O2 address2 chain2 = Raise ValueError)) /\
  ((len address1 <= 256)%nat ->
   exists fv1 fv2,
     @get_features64 lg O1 address1 chain1 = Ok fv1 /\
     @get_features64 lg O2 address2 chain2 = Ok fv2 /\
     col_length64 fv1 = col_length64 fv2).
Proof.
  intros Hlen Hperm.
  rewrite (@get_features64_spec lg O1), (@get_features64_spec lg O2).
  rewrite <- (forallb_perm positive64 _ _ Hperm). split.
  - destruct (forallb positive64
                (map (quotient64 address1) (@set_iter O1 address1))).
    + left. do 2 eexists. repeat split; try reflexivity; [exact Hlen|].
      unfold terms64.
      rewrite <- (map_map (quotient64 address1) (fun q => (- q * lg q)%float)).
      rewrite <- (map_map (quotient64 address2) (fun q => (- q * lg q)%float)).
      now apply Permutation_map.
    + right. split; reflexivity.
  - intros Hsmall. rewrite (@quotients64_positive O1 address1 Hsmall).
    do 2 eexists. repeat split; try reflexivity. exact Hlen.
Qed.

Lemma quotient64_perm (address1 address2 : pystr) (x : pychar) :
  Permutation address1 address2 ->
  quotient64 address1 x = quotient64 address2 x.
Proof.
  intros Hp. unfold quotient64.
  now rewrite (count_perm _ _ x Hp), (len_perm _ _ Hp).
Qed.

Lemma quotients64_perm (O1 O2 : SetOrder) (address1 address2 : pystr) :
  Permutation address1 address2 ->
  Permutation (map (quotient64 address1) (@set_iter O1 address1))
              (map (quotient64 address2) (@set_iter O2 address2)).
Proof.
  intros Hp.
  rewrite (map_ext _ _ (fun x => quotient64_perm address1 address2 x Hp)).
  apply Permutation_map.
  apply perm_trans with (nodup N.eq_dec address1); [apply set_iter_distinct|].
  apply perm_trans with (nodup N.eq_dec address2); [now apply nodup_perm|].
  apply Permutation_sym, set_iter_distinct.
Qed.

(** ** Checks on sample data *)

Example btc_type_samples :
  btc_type_of genesis_address = 0%Z /\
  btc_type_of p2sh_address = 1%Z /\
  btc_type_of bech32_address = 2%Z /\
  btc_type_of eth_address = 3%Z /\
  btc_type_of [] = 3%Z /\
  btc_type_of (str "bc2q") = 3%Z.
Proof. repeat split. Qed.

Example boat_counts :
  len boat_address = 34%nat /\
  count boat_address (ord "t") = 3%nat /\
  count boat_address (ord "1") = 1%nat /\
  List.length (nodup N.eq_dec boat_address) = 26%nat.
Proof. repeat split. Qed.

Example entropy_two_characters : shannon_entropy (str "ab") = 1.
Proof.
  unfold shannon_entropy.
  change (nodup N.eq_dec (str "ab")) with [97%N; 98%N].
  cbn [Rsum]. unfold frequency.
  change (count (str "ab") 97%N) with 1%nat.
  change (count (str "ab") 98%N) with 1%nat.
  change (len (str "ab")) with 2%nat.
  rewrite !INR_IZR_INZ. simpl Z.of_nat.
  assert (Hhalf : log2 (1 / 2) = -1).
  { unfold log2. replace (1 / 2) with (/ 2) by lra.
    rewrite ln_Rinv by lra. pose proof ln2_pos. field. lra. }
  rewrite Hhalf. lra.
Qed.

Example load_samples :
  load_artifacts Absent = Ok None /\
  load_artifacts (Pickled None) = Ok None /\
  load_artifacts (Pickled (Some sample_bundle)) = Ok (Some sample_bundle) /\
  load_artifacts Denied = Raise PermissionError /\
  load_artifacts Corrupt = Raise UnpicklingError.
Proof. repeat split. Qed.

Example first_run_absent :
  @rerun by_last_occurrence fresh (visit Absent) =
  ({| theme := Dark; cache := Some None |},
   ([SidebarTitle "Settings";
     Button "Switch to Light Mode";
     Caption "Current Theme: **Dark**";
     Style (palette_of Dark);
     ErrorBox load_error],
    Stop)).
Proof. reflexivity. Qed.

Example first_run_denied :
  @rerun by_last_occurrence fresh (visit Denied) =
  ({| theme := Dark; cache := None |},
   ([SidebarTitle "Settings";
     Button "Switch to Light Mode";
     Caption "Current Theme: **Dark**";
     Style (palette_of Dark)],
    Crash PermissionError)).
Proof. reflexivity. Qed.

Example run_without_address :
  snd (@rerun by_last_occurrence fresh
         {| clicked_switch := true;
            widgets := {| chain_choice := str "Ethereum";
                          user_address := [];
                          analyze_btn := true |};
            on_disk := Pickled (Some sample_bundle) |}) =
  ([SidebarTitle "Settings";
    Button "Switch to Dark Mode";
    Caption "Current Theme: **Light**";
    Style (palette_of Light);
    Title "Crypto Wallet Forensics";
    Markdown "**Interactive Anomaly Detection System**";
    Markdown "---";
    Selectbox "Network" ["Bitcoin"%string; "Ethereum"%string];
    TextInput "Address";
    Button "Analyze Pattern";
    Info "Enter an address to begin.";
    Markdown "---";
    Footer "#000000" "AI Forensics Tool - Light Mode Active"],
   Done tt).
Proof. reflexivity. Qed.

(** * The claims *)

(** C1. For a non-empty address the entropy field of the row [get_features]
    returns is the Shannon entropy of the address's character frequencies;
    it is at least 0, and it is 0 exactly when the address is one character
    repeated.  This holds in whatever order the set of characters is
    visited. *)
Theorem entropy_is_shannon `{SetOrder} (address chain_input : pystr) :
  address <> [] ->
  exists fv,
    get_features address chain_input = Ok fv /\
    col_entropy fv = shannon_entropy address /\
    0 <= col_entropy fv /\
    (col_entropy fv = 0 <-> single_repeated address).
Proof.
  intros Hne. eexists. split; [apply get_features_row|]. simpl.
  split; [reflexivity|]. split.
  - apply shannon_nonneg.
  - now apply shannon_zero_iff.
Qed.

Lemma entropy_is_shannon_witness :
  exists fv,
    @get_features backwards (str "1A1zP1") (str "Bitcoin") = Ok fv /\
    col_entropy fv = shannon_entropy (str "1A1zP1") /\
    0 <= col_entropy fv /\
    (col_entropy fv = 0 <-> single_repeated (str "1A1zP1")).
Proof.
  apply (@entropy_is_shannon backwards (str "1A1zP1") (str "Bitcoin")).
  vm_compute. discriminate.
Defined.

(** C2. The address-type field is 0 for an address that starts with "1", 1
    for one that starts with "3", 2 for one that starts with "bc1" and 3 for
    every other address, those that start with "0x" among them. *)
Theorem btc_type_by_prefix `{SetOrder} (address chain_input : pystr) :
  exists fv,
    get_features address chain_input = Ok fv /\
    (starts_with address (str "1") -> col_btc_type fv = 0%Z) /\
    (starts_with address (str "3") -> col_btc_type fv = 1%Z) /\
    (starts_with address (str "bc1") -> col_btc_type fv = 2%Z) /\
    (~ starts_with address (str "1") ->
     ~ starts_with address (str "3") ->
     ~ starts_with address (str "bc1") -> col_btc_type fv = 3%Z) /\
    (starts_with address (str "0x") -> col_btc_type fv = 3%Z).
Proof.
  eexists. split; [apply get_features_row|]. simpl.
  split; [apply btc_type_of_legacy|].
  split; [apply btc_type_of_script|].
  split; [apply btc_type_of_segwit|].
  split; [apply btc_type_of_other|].
  intros [rest ->]. reflexivity.
Qed.

Lemma btc_type_by_prefix_witness :
  (exists fv, @get_features backwards genesis_address (str "Bitcoin") = Ok fv /\
              col_btc_type fv = 0%Z) /\
  (exists fv, @get_features backwards p2sh_address (str "Bitcoin") = Ok fv /\
              col_btc_type fv = 1%Z) /\
  (exists fv, @get_features backwards bech32_address (str "Bitcoin") = Ok fv /\
              col_btc_type fv = 2%Z) /\
  (exists fv, @get_features backwards eth_address (str "Ethereum") = Ok fv /\
              col_btc_type fv = 3%Z).
Proof.
  split; [| split; [| split]].
  - destruct (@btc_type_by_prefix backwards genesis_address (str "Bitcoin"))
      as (fv & Hfv & H1 & _).
    exists fv. split; [exact Hfv|]. apply H1.
    exists (skipn 1 genesis_address). reflexivity.
  - destruct (@btc_type_by_prefix backwards p2sh_address (str "Bitcoin"))
      as (fv & Hfv & _ & H3 & _).
    exists fv. split; [exact Hfv|]. apply H3.
    exists (skipn 1 p2sh_address). reflexivity.
  - destruct (@btc_type_by_prefix backwards bech32_address (str "Bitcoin"))
      as (fv & Hfv & _ & _ & Hbc & _).
    exists fv. split; [exact Hfv|]. apply Hbc.
    exists (skipn 3 bech32_address). reflexivity.
  - destruct (@btc_type_by_prefix backwards eth_address (str "Ethereum"))
      as (fv & Hfv & _ & _ & _ & _ & H0x).
    exists fv. split; [exact Hfv|]. apply H0x.
    exists (skipn 2 eth_address). reflexivity.
Defined.

(** C3. For every pair of coordinates the deviation score is computed
    without an exception, it is the Euclidean distance [sqrt (x^2 + y^2)]
    from the origin and at least 0; the status is "Anomaly" exactly when
    the score is at least 3 and "Normal" exactly when it is below 3.  The
    pipeline reports this score and this status for the coordinates the
    projector gives. *)
Theorem deviation_and_status (x y : R) :
  exists d,
    deviation x y = Ok d /\
    d = sqrt (x ^ 2 + y ^ 2) /\
    0 <= d /\
    (status_of d = "Anomaly"%string <-> d >= 3) /\
    (status_of d = "Normal"%string <-> d < 3) /\
    forall b fv,
      pca_transform b (scaler_transform b fv) = (x, y) ->
      exists r, inference b fv = Ok r /\
                coordinates r = (x, y) /\ deviationScore r = d /\ status r = status_of d.
Proof.
  exists (sqrt (x ^ 2 + y ^ 2)).
  split; [apply deviation_ok|]. split; [reflexivity|].
  split; [apply sqrt_pos|].
  split; [apply status_anomaly|]. split; [apply status_normal|].
  intros b fv Hxy. eexists. split; [apply inference_ok|].
  rewrite Hxy. simpl. repeat split.
Qed.

Lemma deviation_and_status_witness :
  exists d, deviation 3 4 = Ok d /\ d = 5 /\ status_of d = "Anomaly"%string.
Proof.
  destruct (deviation_and_status 3 4) as (d & Hd & Heq & _ & Han & _).
  assert (H5 : d = 5).
  { rewrite Heq. replace (3 ^ 2 + 4 ^ 2) with (5 ^ 2) by lra.
    apply sqrt_pow2. lra. }
  exists d. split; [exact Hd|]. split; [exact H5|]. apply Han. lra.
Defined.

(** C4, as the claim words it, fails: a file that is there and cannot be
    opened makes [load_artifacts] raise. *)
Lemma unreadable_file_raises :
  absent_or_unreadable Denied /\
  load_artifacts Denied = Raise PermissionError /\
  ~ (forall disk, absent_or_unreadable disk -> load_artifacts disk = Ok None).
Proof.
  split; [exact I|]. split; [reflexivity|].
  intros Hall. specialize (Hall Denied I). discriminate.
Qed.

(** C4, amended.  When the artifact file is absent [load_artifacts]
    returns [None] and raises nothing.  Whenever the load returns [None]
    the run shows the error and stops before the pipeline, and so does
    every later run of the process, whatever the user does and whatever
    the file has become, since [None] is cached.  A failure other than a
    missing file is not caught: the exception ends that run, before the
    pipeline, and nothing is cached.  In every run a metric or the chart
    is shown only with a bundle loaded. *)
Theorem absent_file_halts `{SetOrder} (th : Theme) (i : interaction)
  (rest : list interaction) :
  load_artifacts Absent = Ok None /\
  (forall disk,
      load_artifacts disk = Ok None ->
      Forall halted
        (session {| theme := th; cache := None |} (with_disk disk i :: rest))) /\
  (forall disk e,
      load_artifacts disk = Raise e ->
      crashed e (snd (rerun {| theme := th; cache := None |} (with_disk disk i))) /\
      cache (fst (rerun {| theme := th; cache := None |} (with_disk disk i))) = None) /\
  (forall p,
      existsb shows_inference (fst (snd (rerun p i))) = true ->
      exists b, cache (fst (rerun p i)) = Some (Some b)).
Proof.
  split; [reflexivity|]. split; [| split].
  - intros disk Hload. cbn [session]. unfold rerun, with_disk, cache_resource.
    cbn [clicked_switch widgets on_disk cache theme]. rewrite Hload.
    constructor; [apply script_none_halted | apply session_cached_none].
  - intros disk e Hload. unfold rerun, with_disk, cache_resource.
    cbn [clicked_switch widgets on_disk cache theme]. rewrite Hload.
    cbn [fst snd cache]. split; [apply script_raise_crashed | reflexivity].
  - intros p. unfold rerun.
    destruct (cache_resource (cache p) (on_disk i)) as [artifacts cache'] eqn:Hc.
    cbn [fst snd cache]. intros Hshow.
    apply inference_needs_bundle in Hshow as [b ->]. exists b.
    unfold cache_resource in Hc. destruct (cache p) as [v |].
    + injection Hc as <- <-. reflexivity.
    + destruct (load_artifacts (on_disk i)) as [v | e].
      * injection Hc as <- <-. reflexivity.
      * discriminate.
Qed.

Lemma absent_file_halts_witness :
  Forall halted
    (@session backwards fresh
       [visit Absent; visit (Pickled (Some sample_bundle)); visit Denied]).
Proof.
  destruct (@absent_file_halts backwards Dark (visit Absent)
              [visit (Pickled (Some sample_bundle)); visit Denied])
    as (Hload & Hhalt & _).
  exact (Hhalt Absent Hload).
Defined.

(** C5. For the empty address [get_features] returns, with entropy 0 and
    length 0; the loop is not entered, and one round of it would have
    divided by the zero length. *)
Theorem empty_address `{SetOrder} (chain_input : pystr) :
  exists fv,
    get_features [] chain_input = Ok fv /\
    col_entropy fv = 0 /\
    col_length fv = 0%nat /\
    forall x xs entropy,
      entropy_loop [] (x :: xs) entropy = Raise ZeroDivisionError.
Proof.
  eexists. split; [reflexivity|]. simpl. repeat split.
Qed.

Lemma empty_address_witness :
  exists fv, @get_features backwards [] (str "Ethereum") = Ok fv /\
             col_entropy fv = 0 /\ col_length fv = 0%nat.
Proof.
  destruct (@empty_address backwards (str "Ethereum")) as (fv & Hfv & He & Hl & _).
  exists fv. split; [exact Hfv|]. split; [exact He | exact Hl].
Defined.

(** C7. For the address "1BoatSLRHtKNngkdXEeobR76b53LETtpyT" on "Bitcoin"
    the row has address type 0, chain 0, length 34 and the Shannon entropy
    of the address; on every bundle the pipeline then returns one cluster
    and one deviation score, which is at least 0, and the page shows
    them. *)
Theorem boat_end_to_end `{SetOrder} (b : ModelBundle) (th : Theme) :
  exists fv r,
    get_features boat_address (str "Bitcoin") = Ok fv /\
    col_btc_type fv = 0%Z /\
    col_chain fv = 0%Z /\
    col_length fv = 34%nat /\
    col_entropy fv = shannon_entropy boat_address /\
    col_entropy fv =
      19 * (- (1 / 34) * log2 (1 / 34))
      + 6 * (- (2 / 34) * log2 (2 / 34))
      + - (3 / 34) * log2 (3 / 34) /\
    inference b fv = Ok r /\
    0 <= deviationScore r /\
    shown (script th (Ok (Some b)) boat_query) =
    (Some (clusterId r), Some (coordinates r), Some (deviationScore r, status r)).
Proof.
  do 2 eexists. split; [apply get_features_row|].
  split; [reflexivity|]. split; [reflexivity|]. split; [reflexivity|].
  split; [reflexivity|]. split; [apply boat_entropy_value|].
  split; [apply inference_ok|]. split; [apply sqrt_pos|].
  rewrite (script_analyzed th b boat_query _ _ eq_refl eq_refl
             (get_features_row _ _) (inference_ok b _)).
  reflexivity.
Qed.

Lemma boat_end_to_end_witness :
  exists r, inference sample_bundle boat_row = Ok r /\ 0 <= deviationScore r.
Proof.
  destruct (@boat_end_to_end backwards sample_bundle Light)
    as (fv & r & Hfv & _ & _ & _ & _ & _ & Hr & Hpos & _).
  rewrite get_features_row in Hfv. injection Hfv as <-.
  exists r. split; [exact Hr | exact Hpos].
Defined.

(** C8. The theme is cosmetic.  A rerun that starts with a click on the
    sidebar button and one that does not, from the same process and with
    the same widget values, end the same way and show the same metrics
    (entropy, length, cluster, deviation score with status) and the same
    coordinates; they leave the same cache.  The same holds for the script
    under Dark and under Light: the feature row and the result of the
    pipeline are fixed by the query and the bundle before the theme is
    looked at.  What the theme changes is the palette. *)
Theorem theme_is_cosmetic `{SetOrder} (p : process) (i : interaction) :
  theme (fst (rerun p (with_switch true i))) =
    toggle_theme (theme (fst (rerun p (with_switch false i)))) /\
  cache (fst (rerun p (with_switch true i))) =
    cache (fst (rerun p (with_switch false i))) /\
  snd (snd (rerun p (with_switch true i))) =
    snd (snd (rerun p (with_switch false i))) /\
  metrics (snd (rerun p (with_switch true i))) =
    metrics (snd (rerun p (with_switch false i))) /\
  shown (snd (rerun p (with_switch true i))) =
    shown (snd (rerun p (with_switch false i))) /\
  (forall artifacts inp,
      snd (script Dark artifacts inp) = snd (script Light artifacts inp) /\
      metrics (script Dark artifacts inp) = metrics (script Light artifacts inp) /\
      shown (script Dark artifacts inp) = shown (script Light artifacts inp)) /\
  (forall b inp,
      analyze_btn inp = true ->
      truthy (user_address inp) = true ->
      exists fv r,
        get_features (user_address inp) (chain_choice inp) = Ok fv /\
        inference b fv = Ok r /\
        forall th,
          shown (script th (Ok (Some b)) inp) =
          (Some (clusterId r), Some (coordinates r),
           Some (deviationScore r, status r))) /\
  palette_of Dark <> palette_of Light.
Proof.
  unfold rerun, with_switch. cbn [clicked_switch widgets on_disk].
  destruct (cache_resource (cache p) (on_disk i)) as [artifacts cache'].
  cbn [fst snd theme cache].
  destruct (script_any_theme (toggle_theme (theme p)) (theme p)
              artifacts (widgets i)) as (Hend & Hmet & Hshown).
  split; [reflexivity|]. split; [reflexivity|].
  split; [exact Hend|]. split; [exact Hmet|]. split; [exact Hshown|].
  split; [intros a inp; apply script_any_theme|]. split.
  - intros b inp Hbtn Haddr. do 2 eexists.
    split; [apply get_features_row|]. split; [apply inference_ok|].
    intros th.
    rewrite (script_analyzed th b inp _ _ Hbtn Haddr
               (get_features_row _ _) (inference_ok b _)).
    reflexivity.
  - discriminate.
Qed.

Lemma theme_is_cosmetic_witness :
  metrics (snd (@rerun backwards fresh
                  (with_switch true (visit (Pickled (Some sample_bundle)))))) =
  metrics (snd (@rerun backwards fresh (visit (Pickled (Some sample_bundle))))) /\
  theme (fst (@rerun backwards fresh
                (with_switch true (visit (Pickled (Some sample_bundle)))))) = Light.
Proof.
  destruct (@theme_is_cosmetic backwards fresh
              (visit (Pickled (Some sample_bundle))))
    as (Hth & _ & _ & Hm & _).
  split; [exact Hm | exact Hth].
Defined.

(** C9. The address-type field does not depend on the chain selector, only
    on the first characters of the address: an address that starts with "1"
    gets 0 under "Ethereum" too. *)
Theorem btc_type_ignores_chain `{SetOrder} (address chain1 chain2 : pystr) :
  exists fv1 fv2,
    get_features address chain1 = Ok fv1 /\
    get_features address chain2 = Ok fv2 /\
    col_btc_type fv1 = col_btc_type fv2 /\
    (forall address' chain',
        firstn 3 address' = firstn 3 address ->
        exists fv', get_features address' chain' = Ok fv' /\
                    col_btc_type fv' = col_btc_type fv1) /\
    (forall rest,
        exists fe, get_features (str "1" ++ rest) (str "Ethereum") = Ok fe /\
                   col_btc_type fe = 0%Z /\ col_chain fe = 1%Z).
Proof.
  do 2 eexists. split; [apply get_features_row|].
  split; [apply get_features_row|]. simpl.
  split; [reflexivity|]. split.
  - intros address' chain' H3. eexists. split; [apply get_features_row|].
    simpl. now apply btc_type_firstn.
  - intros rest. eexists. split; [apply get_features_row|]. now simpl.
Qed.

Lemma btc_type_ignores_chain_witness :
  exists fv1 fv2,
    @get_features backwards genesis_address (str "Bitcoin") = Ok fv1 /\
    @get_features backwards genesis_address (str "Ethereum") = Ok fv2 /\
    col_btc_type fv1 = col_btc_type fv2.
Proof.
  destruct (@btc_type_ignores_chain backwards genesis_address
              (str "Bitcoin") (str "Ethereum"))
    as (fv1 & fv2 & H1 & H2 & Heq & _).
  exists fv1, fv2. split; [exact H1|]. split; [exact H2 | exact Heq].
Defined.


(** C10, as the claim words it, fails in binary64: "111APz" and "APz111" are
    rearrangements of one another, and with their characters visited in the
    order of last occurrence the loop returns 1.7924812503605778 for the
    one and 1.792481250360578 for the other. *)
Lemma rearranged_addresses_differ :
  Permutation (str "111APz") (str "APz111") /\
  exists fv1 fv2,
    @get_features64 log2_at_samples by_last_occurrence
      (str "111APz") (str "Bitcoin") = Ok fv1 /\
    @get_features64 log2_at_samples by_last_occurrence
      (str "APz111") (str "Bitcoin") = Ok fv2 /\
    col_entropy64 fv1 = 0x1.cae00d1cfdeb3p+0%float /\
    col_entropy64 fv2 = 0x1.cae00d1cfdeb4p+0%float /\
    PrimFloat.eqb (col_entropy64 fv1) (col_entropy64 fv2) = false.
Proof.
  split.
  - change (str "111APz") with ([49; 49; 49] ++ [65; 80; 122])%N.
    change (str "APz111") with ([65; 80; 122] ++ [49; 49; 49])%N.
    apply Permutation_app_comm.
  - do 2 eexists. split; [vm_compute; reflexivity|].
    split; [vm_compute; reflexivity|]. repeat split.
Qed.

(** C10, amended.  Two addresses that are rearrangements of one another get
    the same length, and their entropies are sums of the same terms, one
    for each distinct character, added in the orders in which the two sets
    of characters are visited: the two calls end alike (both return, as
    they do for every address of up to 256 characters, or both raise the
    math domain error), and the two sums are equal in exact arithmetic.  In
    binary64 they can differ in the last bits. *)
Theorem rearranged_addresses_same_terms (lg : float -> float)
  (O1 O2 : SetOrder) (address1 address2 chain1 chain2 : pystr) :
  Permutation address1 address2 ->
  ((exists fv1 fv2,
       @get_features64 lg O1 address1 chain1 = Ok fv1 /\
       @get_features64 lg O2 address2 chain2 = Ok fv2 /\
       col_length64 fv1 = col_length64 fv2 /\
       col_entropy64 fv1 = fsum (@terms64 lg O1 address1) /\
       col_entropy64 fv2 = fsum (@terms64 lg O2 address2) /\
       Permutation (@terms64 lg O1 address1) (@terms64 lg O2 address2)) \/
   (@get_features64 lg O1 address1 chain1 = Raise ValueError /\
    @get_features64 lg O2 address2 chain2 = Raise ValueError)) /\
  ((len address1 <= 256)%nat ->
   exists fv1 fv2,
     @get_features64 lg O1 address1 chain1 = Ok fv1 /\
     @get_features64 lg O2 address2 chain2 = Ok fv2 /\
     col_length64 fv1 = col_length64 fv2) /\
  (exists r1 r2,
     @get_features O1 address1 chain1 = Ok r1 /\
     @get_features O2 address2 chain2 = Ok r2 /\
     col_entropy r1 = col_entropy r2 /\
     col_length r1 = col_length r2).
Proof.
  intros Hp.
  destruct (get_features64_alike lg O1 O2 address1 address2 chain1 chain2
              (len_perm _ _ Hp) (quotients64_perm O1 O2 _ _ Hp))
    as (Halike & Hsmall).
  split; [exact Halike|]. split; [exact Hsmall|].
  now apply exact_entropy_permutation.
Qed.

Lemma rearranged_addresses_same_terms_witness :
  exists fv1 fv2,
    @get_features64 log2_at_samples by_last_occurrence
      (str "111APz") (str "Bitcoin") = Ok fv1 /\
    @get_features64 log2_at_samples backwards
      (str "APz111") (str "Ethereum") = Ok fv2 /\
    col_length64 fv1 = col_length64 fv2.
Proof.
  destruct (rearranged_addresses_same_terms log2_at_samples
              by_last_occurrence backwards
              (str "111APz") (str "APz111") (str "Bitcoin") (str "Ethereum"))
    as (_ & Hsmall & _).
  - change (str "111APz") with ([49; 49; 49] ++ [65; 80; 122])%N.
    change (str "APz111") with ([65; 80; 122] ++ [49; 49; 49])%N.
    apply Permutation_app_comm.
  - apply Hsmall. vm_compute. repeat constructor.
Defined.

(** * Further properties of the script *)

Lemma pystr_eqb_spec (a b : pystr) : pystr_eqb a b = true <-> a = b.
Proof.
  revert b. induction a as [| x a IH]; intros [| y b]; simpl.
  - split; reflexivity.
  - split; discriminate.
  - split; discriminate.
  - rewrite andb_true_iff, N.eqb_eq, IH. split.
    + intros [-> ->]. reflexivity.
    + intros Heq. injection Heq as -> ->. split; reflexivity.
Qed.

Lemma btc_type_of_range (a : pystr) : (0 <= btc_type_of a <= 3)%Z.
Proof.
  unfold btc_type_of.
  destruct (startswith a (str "1")); [lia|].
  destruct (startswith a (str "3")); [lia|].
  destruct (startswith a (str "bc1")); lia.
Qed.

(** ** Feature rows *)

(** X1. [get_features] returns a row for every address and every chain
    selector, the empty address and addresses that are no wallet address
    included.  The row keeps the bounds of the data model: its length is
    the number of characters, its entropy is at least 0, its chain code is
    0 or 1 and its address type is between 0 and 3. *)
Theorem row_well_formed `{SetOrder} (address chain_input : pystr) :
  exists fv,
    get_features address chain_input = Ok fv /\
    col_length fv = len address /\
    0 <= col_entropy fv /\
    (col_chain fv = 0%Z \/ col_chain fv = 1%Z) /\
    (0 <= col_btc_type fv <= 3)%Z.
Proof.
  eexists. split; [apply get_features_row|]. simpl.
  split; [reflexivity|]. split; [| split].
  - apply shannon_nonneg.
  - destruct (pystr_eqb chain_input (str "Ethereum")); [now right | now left].
  - apply btc_type_of_range.
Qed.

(** X3. The chain code is 1 exactly when the chain selector is the string
    "Ethereum" and 0 for every other selector: "Bitcoin", but also
    "ethereum" and the empty string. *)
Theorem chain_field `{SetOrder} (address chain_input : pystr) :
  exists fv,
    get_features address chain_input = Ok fv /\
    (col_chain fv = 1%Z <-> chain_input = str "Ethereum") /\
    (col_chain fv = 0%Z <-> chain_input <> str "Ethereum") /\
    (forall fb, get_features address (str "Bitcoin") = Ok fb -> col_chain fb = 0%Z) /\
    (forall fl, get_features address (str "ethereum") = Ok fl -> col_chain fl = 0%Z).
Proof.
  eexists. split; [apply get_features_row|]. simpl.
  destruct (pystr_eqb chain_input (str "Ethereum")) eqn:E.
  - apply pystr_eqb_spec in E. repeat split; try congruence; try discriminate.
    + intros fb Hfb. rewrite get_features_row in Hfb. now injection Hfb as <-.
    + intros fl Hfl. rewrite get_features_row in Hfl. now injection Hfl as <-.
  - assert (Hne : chain_input <> str "Ethereum").
    { intros Heq. apply pystr_eqb_spec in Heq. congruence. }
    repeat split; try congruence; try discriminate.
    + intros fb Hfb. rewrite get_features_row in Hfb. now injection Hfb as <-.
    + intros fl Hfl. rewrite get_features_row in Hfl. now injection Hfl as <-.
Qed.

(** ** Loading and caching *)

(** X4. [load_artifacts] never lets a [FileNotFoundError] out: one that
    [open] raises on a missing file and one that is raised while a file that
    is there is unpickled both come back as [None].  Every other exception
    of [open] or [pickle.load] passes through unchanged, and a bundle is
    returned exactly for a pickle of one. *)
Theorem load_artifacts_outcomes (disk : artifact_file) :
  load_artifacts disk <> Raise FileNotFoundError /\
  (forall b, load_artifacts disk = Ok (Some b) <-> disk = Pickled (Some b)) /\
  (load_artifacts disk = Ok None <->
   disk = Absent \/ disk = Pickled None \/ disk = Raising FileNotFoundError) /\
  (forall e,
      load_artifacts disk = Raise e <->
      e <> FileNotFoundError /\
      (disk = Denied /\ e = PermissionError \/
       disk = Corrupt /\ e = UnpicklingError \/
       disk = Raising e)).
Proof.
  destruct disk as [| | | e0 | [b' |]].
  - cbn. split; [discriminate|]. split; [intros b; split; discriminate|].
    split; [split; [now left | reflexivity]|].
    intros e. split; [discriminate|].
    intros (_ & [[Hd _] | [[Hd _] | Hd]]); discriminate.
  - cbn. split; [discriminate|]. split; [intros b; split; discriminate|].
    split.
    { split; [discriminate | intros [Hd | [Hd | Hd]]; discriminate]. }
    intros e. split.
    + intros He. injection He as <-. split; [discriminate | now left].
    + intros (_ & [[_ ->] | [[Hd _] | Hd]]); [reflexivity | discriminate..].
  - cbn. split; [discriminate|]. split; [intros b; split; discriminate|].
    split.
    { split; [discriminate | intros [Hd | [Hd | Hd]]; discriminate]. }
    intros e. split.
    + intros He. injection He as <-. split; [discriminate | right; now left].
    + intros (_ & [[Hd _] | [[_ ->] | Hd]]); [discriminate | reflexivity | discriminate].
  - destruct e0; cbn;
      (split; [discriminate|]);
      (split; [intros b; split; discriminate|]);
      (split;
       [split;
        [first [discriminate | intros _; right; right; reflexivity]
        | intros [Hd | [Hd | Hd]]; first [discriminate | reflexivity]]
       |]);
      (intros e; split;
       [intros He; first [discriminate He
                          | injection He as <-;
                            split; [discriminate | right; right; reflexivity]]
       | intros (Hne & [[Hd _] | [[Hd _] | Hd]]);
         first [discriminate Hd
               | injection Hd as <-; first [reflexivity | now contradiction Hne]]]).
  - cbn. split; [discriminate|].
    split; [intros b; split; intros Hb; injection Hb as ->; reflexivity|].
    split.
    { split; [discriminate | intros [Hd | [Hd | Hd]]; discriminate]. }
    intros e. split; [discriminate|].
    intros (_ & [[Hd _] | [[Hd _] | Hd]]); discriminate.
  - cbn. split; [discriminate|]. split; [intros b; split; discriminate|].
    split; [split; [intros _; right; now left | reflexivity]|].
    intros e. split; [discriminate|].
    intros (_ & [[Hd _] | [[Hd _] | Hd]]); discriminate.
Qed.

Lemma rerun_cached `{SetOrder} (th : Theme) (v : option ModelBundle)
  (i : interaction) :
  rerun {| theme := th; cache := Some v |} i =
  ({| theme := if clicked_switch i then toggle_theme th else th;
      cache := Some v |},
   script (if clicked_switch i then toggle_theme th else th) (Ok v) (widgets i)).
Proof. reflexivity. Qed.

Lemma rerun_theme `{SetOrder} (p : process) (i : interaction) :
  theme (fst (rerun p i)) =
  if clicked_switch i then toggle_theme (theme p) else theme p.
Proof.
  unfold rerun.
  destruct (cache_resource (cache p) (on_disk i)) as [artifacts cache'].
  reflexivity.
Qed.

(** X5. Once [load_artifacts] has returned, its value stays in the cache
    for the rest of the process and the file is not read again: from then
    on the pages are the same whatever the file has become. *)
Theorem cached_value_is_kept `{SetOrder} (v : option ModelBundle)
  (actions : list interaction) :
  forall th,
    cache (run_all {| theme := th; cache := Some v |} actions) = Some v /\
    forall disk,
      session {| theme := th; cache := Some v |} (map (with_disk disk) actions) =
      session {| theme := th; cache := Some v |} actions.
Proof.
  induction actions as [| i rest IH]; intros th.
  - split; [reflexivity | intros disk; reflexivity].
  - destruct (IH (if clicked_switch i then toggle_theme th else th))
      as (Hcache & Hpages).
    split.
    + cbn [run_all]. rewrite rerun_cached. exact Hcache.
    + intros disk. cbn [session map]. rewrite !rerun_cached.
      cbn [with_disk clicked_switch widgets].
      now rewrite Hpages.
Qed.

Lemma cached_value_is_kept_witness :
  @session backwards {| theme := Light; cache := Some (Some sample_bundle) |}
    (map (with_disk Absent) [visit Denied; visit Corrupt]) =
  @session backwards {| theme := Light; cache := Some (Some sample_bundle) |}
    [visit Denied; visit Corrupt].
Proof.
  destruct (@cached_value_is_kept backwards (Some sample_bundle)
              [visit Denied; visit Corrupt] Light) as (_ & Hpages).
  exact (Hpages Absent).
Defined.

Lemma rerun_first_load `{SetOrder} (th : Theme) (i : interaction) :
  rerun {| theme := th; cache := None |} i =
  ({| theme := if clicked_switch i then toggle_theme th else th;
      cache := match load_artifacts (on_disk i) with
               | Ok v => Some v
               | Raise _ => None
               end |},
   script (if clicked_switch i then toggle_theme th else th)
          (load_artifacts (on_disk i)) (widgets i)).
Proof.
  unfold rerun, cache_resource. cbn [cache theme].
  destruct (load_artifacts (on_disk i)); reflexivity.
Qed.

(** With a bundle in hand the script runs to its last line. *)
Lemma script_loaded_completes `{SetOrder} (th : Theme) (b : ModelBundle)
  (inp : inputs) :
  completed th (script th (Ok (Some b)) inp).
Proof.
  unfold completed.
  destruct (analyze_btn inp) eqn:Hbtn.
  - destruct (truthy (user_address inp)) eqn:Haddr.
    + rewrite (script_analyzed th b inp _ _ Hbtn Haddr
                 (get_features_row _ _) (inference_ok b _)).
      split; reflexivity.
    + unfold script, lift, emit. rewrite Hbtn, Haddr. split; reflexivity.
  - unfold script, lift, emit. rewrite Hbtn. split; reflexivity.
Qed.

(** X6. With the bundle loaded no run fails: whatever the user types,
    selects and clicks, and whatever the file has become, every page of the
    session runs to the last line of the script and ends with the footer;
    no exception leaves [get_features] or the pipeline. *)
Theorem loaded_bundle_never_fails `{SetOrder} (b : ModelBundle)
  (actions : list interaction) :
  forall th,
    Forall (fun page => exists th', completed th' page)
           (session {| theme := th; cache := Some (Some b) |} actions).
Proof.
  induction actions as [| i rest IH]; intros th; cbn [session].
  - constructor.
  - rewrite rerun_cached. constructor; [| apply IH].
    eexists. apply script_loaded_completes.
Qed.

Lemma loaded_bundle_never_fails_witness :
  Forall (fun page => exists th', completed th' page)
         (@session backwards {| theme := Dark; cache := Some (Some sample_bundle) |}
            [visit Absent; with_switch true (visit Corrupt)]).
Proof.
  exact (@loaded_bundle_never_fails backwards sample_bundle
           [visit Absent; with_switch true (visit Corrupt)] Dark).
Defined.

(** X7. A failed load is tried again: after a run that died on an
    exception of [load_artifacts], the next run with a readable bundle on
    disk loads it, runs to the last line and leaves it in the cache. *)
Theorem load_is_retried_after_exception `{SetOrder} (th : Theme)
  (i j : interaction) (e : exn) (b : ModelBundle) :
  load_artifacts (on_disk i) = Raise e ->
  on_disk j = Pickled (Some b) ->
  exists page1 page2,
    session {| theme := th; cache := None |} [i; j] = [page1; page2] /\
    snd page1 = Crash e /\
    snd page2 = Done tt /\
    cache (run_all {| theme := th; cache := None |} [i; j]) = Some (Some b).
Proof.
  intros Hi Hj.
  assert (Hload : load_artifacts (on_disk j) = Ok (Some b)) by now rewrite Hj.
  cbn [session run_all]. rewrite !rerun_first_load, Hi. cbn [fst].
  rewrite !rerun_first_load, Hload. cbn [fst cache].
  do 2 eexists. split; [reflexivity|]. split; [reflexivity|].
  split; [| reflexivity].
  apply script_loaded_completes.
Qed.

Lemma load_is_retried_after_exception_witness :
  exists page1 page2,
    @session backwards fresh [visit Denied; visit (Pickled (Some sample_bundle))] =
      [page1; page2] /\
    snd page1 = Crash PermissionError /\
    snd page2 = Done tt.
Proof.
  destruct (@load_is_retried_after_exception backwards Dark
              (visit Denied) (visit (Pickled (Some sample_bundle)))
              PermissionError sample_bundle eq_refl eq_refl)
    as (page1 & page2 & Hs & H1 & H2 & _).
  exists page1, page2. split; [exact Hs|]. split; [exact H1 | exact H2].
Defined.

(** ** Pages *)

Lemma truthy_nonempty (s : pystr) : truthy s = true <-> s <> [].
Proof.
  destruct s; simpl; split; congruence.
Qed.

(** X8. A page shows a metric or the chart exactly when a bundle is loaded,
    the Analyze button was clicked in this run and the address field is not
    empty.  A click with an empty field shows the hint instead. *)
Theorem inference_shown_iff `{SetOrder} (th : Theme)
  (artifacts : result (option ModelBundle)) (inp : inputs) :
  (existsb shows_inference (fst (script th artifacts inp)) = true <->
   (exists b, artifacts = Ok (Some b)) /\
   analyze_btn inp = true /\
   user_address inp <> []) /\
  ((exists b, artifacts = Ok (Some b)) ->
   analyze_btn inp = true ->
   user_address inp = [] ->
   In (Info "Enter an address to begin.") (fst (script th artifacts inp))).
Proof.
  destruct artifacts as [[b |] | e].
  - destruct (analyze_btn inp) eqn:Hbtn.
    + destruct (truthy (user_address inp)) eqn:Haddr.
      * rewrite (script_analyzed th b inp _ _ Hbtn Haddr
                   (get_features_row _ _) (inference_ok b _)).
        apply truthy_nonempty in Haddr. split.
        -- split; [intros _ | reflexivity].
           split; [now exists b | now split].
        -- intros _ _ Hempty. contradiction.
      * unfold script, lift, emit. rewrite Hbtn, Haddr. split.
        -- split; [discriminate|]. intros (_ & _ & Hne).
           apply truthy_nonempty in Hne. congruence.
        -- intros _ _ _. simpl. do 10 right. now left.
    + unfold script, lift, emit. rewrite Hbtn. split.
      * split; [discriminate | intros (_ & Hf & _); discriminate].
      * intros _ Hf. discriminate.
  - split.
    + split; [discriminate | intros ([b Hb] & _); discriminate].
    + intros [b Hb]. discriminate.
  - split.
    + split; [discriminate | intros ([b Hb] & _); discriminate].
    + intros [b Hb]. discriminate.
Qed.




(** X10. Whatever deviation metric a page shows, the score is at least 0,
    the label under it is the status for that score and its colour is the
    colour for that score: "inverse" goes with "Anomaly" and "normal" with
    "Normal". *)
Theorem deviation_metric_consistent `{SetOrder} (th : Theme)
  (artifacts : result (option ModelBundle)) (inp : inputs)
  (d : R) (delta delta_color : string) :
  In (Metric "Deviation Score" (Float2 d) delta delta_color)
     (fst (script th artifacts inp)) ->
  0 <= d /\
  delta = status_of d /\
  delta_color = color_of d /\
  (delta_color = "inverse"%string <-> delta = "Anomaly"%string) /\
  (delta_color = "normal"%string <-> delta = "Normal"%string).
Proof.
  intros Hin.
  assert (Hd : 0 <= d /\ delta = status_of d /\ delta_color = color_of d).
  { destruct artifacts as [[b |] | e].
    - destruct (analyze_btn inp) eqn:Hbtn.
      + destruct (truthy (user_address inp)) eqn:Haddr.
        * rewrite (script_analyzed th b inp _ _ Hbtn Haddr
                     (get_features_row _ _) (inference_ok b _)) in Hin.
          cbn [fst In] in Hin.
          repeat (destruct Hin as [Hin | Hin]; try discriminate Hin);
            try contradiction.
          injection Hin as <- <- <-. cbn [deviationScore status].
          split; [apply sqrt_pos | split; reflexivity].
        * unfold script, lift, emit in Hin. rewrite Hbtn, Haddr in Hin.
          cbn in Hin.
          repeat (destruct Hin as [Hin | Hin]; try discriminate Hin);
            contradiction.
      + unfold script, lift, emit in Hin. rewrite Hbtn in Hin. cbn in Hin.
        repeat (destruct Hin as [Hin | Hin]; try discriminate Hin);
          contradiction.
    - cbn in Hin.
      repeat (destruct Hin as [Hin | Hin]; try discriminate Hin); contradiction.
    - cbn in Hin.
      repeat (destruct Hin as [Hin | Hin]; try discriminate Hin); contradiction. }
  destruct Hd as (Hpos & -> & ->).
  split; [exact Hpos|]. split; [reflexivity|]. split; [reflexivity|].
  unfold color_of, status_of.
  destruct (Rlt_dec d 3); split; split; intros Hx;
    try reflexivity; discriminate Hx.
Qed.

Lemma deviation_metric_consistent_witness :
  exists d delta delta_color,
    In (Metric "Deviation Score" (Float2 d) delta delta_color)
       (fst (@script backwards Light (Ok (Some sample_bundle)) boat_query)) /\
    0 <= d /\ delta = status_of d.
Proof.
  eassert (Hin : In (Metric "Deviation Score" (Float2 _) _ _)
                    (fst (@script backwards Light (Ok (Some sample_bundle))
                            boat_query))).
  { rewrite (@script_analyzed backwards Light sample_bundle boat_query _ _
               eq_refl eq_refl (get_features_row _ _)
               (inference_ok sample_bundle _)).
    cbn [fst In]. do 14 right. left. reflexivity. }
  do 3 eexists. split; [exact Hin|].
  destruct (@deviation_metric_consistent backwards Light
              (Ok (Some sample_bundle)) boat_query _ _ _ Hin)
    as (Hpos & Hdelta & _).
  split; [exact Hpos | exact Hdelta].
Defined.

(** X11. Whatever chart a page shows, it is drawn with the template of the
    current theme over the reference data of the loaded bundle; its hover
    text holds the first characters of the address, never more than eight,
    and the cluster that the cluster metric of the same page shows. *)
Theorem chart_consistent `{SetOrder} (th : Theme)
  (artifacts : result (option ModelBundle)) (inp : inputs)
  (template : string) (reference : list (R * R * Z)) (target : R * R)
  (hover_address : pystr) (hover_cluster : Z) :
  In (PlotlyChart template reference target hover_address hover_cluster)
     (fst (script th artifacts inp)) ->
  template = chart_template (palette_of th) /\
  (exists b, artifacts = Ok (Some b) /\ reference = viz_data b /\
             target = pca_transform b
                        (scaler_transform b
                           {| col_length := len (user_address inp);
                              col_entropy := shannon_entropy (user_address inp);
                              col_chain := if pystr_eqb (chain_choice inp)
                                                        (str "Ethereum")
                                           then 1%Z else 0%Z;
                              col_btc_type := btc_type_of (user_address inp) |})) /\
  hover_address = firstn 8 (user_address inp) /\
  (len hover_address <= 8)%nat /\
  shown_cluster (fst (script th artifacts inp)) = Some hover_cluster /\
  shown_coordinates (fst (script th artifacts inp)) = Some target.
Proof.
  intros Hin.
  destruct artifacts as [[b |] | e].
  - destruct (analyze_btn inp) eqn:Hbtn.
    + destruct (truthy (user_address inp)) eqn:Haddr.
      * rewrite (script_analyzed th b inp _ _ Hbtn Haddr
                   (get_features_row _ _) (inference_ok b _)) in *.
        cbn [fst In] in Hin.
        repeat (destruct Hin as [Hin | Hin]; try discriminate Hin);
          try contradiction.
        injection Hin as <- <- <- <- <-. cbn [coordinates clusterId].
        split; [reflexivity|]. split; [exists b; repeat split|].
        split; [reflexivity|].
        split; [exact (firstn_le_length 8 (user_address inp))|].
        split; reflexivity.
      * unfold script, lift, emit in Hin. rewrite Hbtn, Haddr in Hin.
        cbn in Hin.
        repeat (destruct Hin as [Hin | Hin]; try discriminate Hin);
          contradiction.
    + unfold script, lift, emit in Hin. rewrite Hbtn in Hin. cbn in Hin.
      repeat (destruct Hin as [Hin | Hin]; try discriminate Hin);
        contradiction.
  - cbn in Hin.
    repeat (destruct Hin as [Hin | Hin]; try discriminate Hin); contradiction.
  - cbn in Hin.
    repeat (destruct Hin as [Hin | Hin]; try discriminate Hin); contradiction.
Qed.

Lemma chart_consistent_witness :
  exists template reference target hover_cluster,
    In (PlotlyChart template reference target (str "1BoatSLR") hover_cluster)
       (fst (@script backwards Dark (Ok (Some sample_bundle)) boat_query)) /\
    template = "plotly_dark"%string /\
    shown_cluster (fst (@script backwards Dark (Ok (Some sample_bundle)) boat_query))
    = Some hover_cluster.
Proof.
  eassert (Hin : In (PlotlyChart _ _ _ _ _)
                    (fst (@script backwards Dark (Ok (Some sample_bundle))
                            boat_query))).
  { rewrite (@script_analyzed backwards Dark sample_bundle boat_query _ _
               eq_refl eq_refl (get_features_row _ _)
               (inference_ok sample_bundle _)).
    cbn [fst In]. do 16 right. left. reflexivity. }
  do 4 eexists. split; [exact Hin|].
  destruct (@chart_consistent backwards Dark (Ok (Some sample_bundle))
              boat_query _ _ _ _ _ Hin)
    as (Htemplate & _ & _ & _ & Hcluster & _).
  split; [exact Htemplate | exact Hcluster].
Defined.

(** ** The theme across a session *)

Lemma clicks_cons (i : interaction) (rest : list interaction) :
  clicks (i :: rest) = if clicked_switch i then S (clicks rest) else clicks rest.
Proof.
  unfold clicks. simpl. destruct (clicked_switch i); reflexivity.
Qed.

(** X12. The theme a session ends in depends on the number of clicks on the
    sidebar button alone: the starting theme after an even number, the
    other theme after an odd number, whatever else the user did and
    whether the bundle loaded, was missing or the load raised. *)
Theorem theme_follows_clicks `{SetOrder} (actions : list interaction) :
  forall p,
    theme (run_all p actions) =
    if Nat.even (clicks actions) then theme p else toggle_theme (theme p).
Proof.
  induction actions as [| i rest IH]; intros p.
  - reflexivity.
  - cbn [run_all]. rewrite IH, rerun_theme, clicks_cons.
    destruct (clicked_switch i).
    + rewrite Nat.even_succ, <- Nat.negb_even.
      destruct (Nat.even (clicks rest)), (theme p); reflexivity.
    + reflexivity.
Qed.

Lemma theme_follows_clicks_witness :
  theme (@run_all backwards fresh
           [with_switch true (visit Absent); visit Denied;
            with_switch true (visit Corrupt);
            with_switch true (visit (Pickled (Some sample_bundle)))]) = Light.
Proof.
  exact (@theme_follows_clicks backwards
           [with_switch true (visit Absent); visit Denied;
            with_switch true (visit Corrupt);
            with_switch true (visit (Pickled (Some sample_bundle)))] fresh).
Defined.

(** ** Renaming the characters *)

Lemma Rsum_map (g : pychar -> R) (f : pychar -> pychar) (xs : list pychar) :
  Rsum g (map f xs) = Rsum (fun x => g (f x)) xs.
Proof.
  induction xs as [| x xs IH]; simpl; [reflexivity | now rewrite IH].
Qed.

Lemma NoDup_map_injective (f : pychar -> pychar) (xs : list pychar) :
  (forall x y, f x = f y -> x = y) -> NoDup xs -> NoDup (map f xs).
Proof.
  intros Hinj. induction 1 as [| x xs Hx Hnd IH]; simpl; constructor.
  - intros Hin. apply in_map_iff in Hin as (y & Hy & Hyin).
    apply Hinj in Hy. subst y. contradiction.
  - exact IH.
Qed.

Lemma nodup_map_injective (f : pychar -> pychar) (s : pystr) :
  (forall x y, f x = f y -> x = y) ->
  Permutation (nodup N.eq_dec (map f s)) (map f (nodup N.eq_dec s)).
Proof.
  intros Hinj. apply NoDup_Permutation.
  - apply NoDup_nodup.
  - apply NoDup_map_injective; [exact Hinj | apply NoDup_nodup].
  - intros y. rewrite nodup_In, !in_map_iff. split.
    + intros (x & Hx & Hin). exists x. split; [exact Hx | now apply nodup_In].
    + intros (x & Hx & Hin). exists x. split; [exact Hx | now apply nodup_In in Hin].
Qed.

Lemma frequency_map_injective (f : pychar -> pychar) (s : pystr) (x : pychar) :
  (forall x y, f x = f y -> x = y) ->
  frequency (map f s) (f x) = frequency s x.
Proof.
  intros Hinj.
  assert (Hc : count (map f s) (f x) = count s x).
  { symmetry. exact (count_occ_map f N.eq_dec N.eq_dec Hinj x s). }
  assert (Hl : len (map f s) = len s) by exact (length_map f s).
  unfold frequency. now rewrite Hc, Hl.
Qed.

(** In exact arithmetic a one-to-one renaming of the characters changes
    neither the entropy nor the length. *)
Lemma exact_entropy_renaming (O1 O2 : SetOrder) (f : pychar -> pychar)
  (address chain1 chain2 : pystr) :
  (forall x y, f x = f y -> x = y) ->
  exists fv1 fv2,
    @get_features O1 address chain1 = Ok fv1 /\
    @get_features O2 (map f address) chain2 = Ok fv2 /\
    col_entropy fv2 = col_entropy fv1 /\
    col_length fv2 = col_length fv1.
Proof.
  intros Hinj. do 2 eexists.
  split; [apply get_features_row|]. split; [apply get_features_row|]. simpl.
  split; [| unfold len; apply length_map].
  unfold shannon_entropy.
  rewrite (Rsum_perm _ _ _ (nodup_map_injective f address Hinj)), Rsum_map.
  apply Rsum_ext. intros x _.
  now rewrite frequency_map_injective.
Qed.

Lemma quotient64_map_injective (f : pychar -> pychar) (s : pystr) (x : pychar) :
  (forall x y, f x = f y -> x = y) ->
  quotient64 (map f s) (f x) = quotient64 s x.
Proof.
  intros Hinj.
  assert (Hc : count (map f s) (f x) = count s x).
  { symmetry. exact (count_occ_map f N.eq_dec N.eq_dec Hinj x s). }
  assert (Hl : len (map f s) = len s) by exact (length_map f s).
  unfold quotient64. now rewrite Hc, Hl.
Qed.

Lemma quotients64_map_injective (O1 O2 : SetOrder) (f : pychar -> pychar)
  (s : pystr) :
  (forall x y, f x = f y -> x = y) ->
  Permutation (map (quotient64 s) (@set_iter O1 s))
              (map (quotient64 (map f s)) (@set_iter O2 (map f s))).
Proof.
  intros Hinj.
  apply perm_trans with (map (quotient64 (map f s)) (map f (nodup N.eq_dec s))).
  - rewrite map_map.
    rewrite (map_ext _ _ (fun x => quotient64_map_injective f s x Hinj)).
    apply Permutation_map, set_iter_distinct.
  - apply Permutation_map.
    apply perm_trans with (nodup N.eq_dec (map f s)).
    + apply Permutation_sym. now apply nodup_map_injective.
    + apply Permutation_sym, set_iter_distinct.
Qed.

(** X13. Which characters an address is made of does not matter to the
    length or to the terms of the entropy, only how often each occurs:
    after a one-to-one renaming of the characters the call ends as before
    (it returns, as it does for every address of up to 256 characters, or
    raises the math domain error), with the same length and the same terms
    to add, in the order in which the new set is visited.  The sums are
    equal in exact arithmetic; in binary64 the order of the additions can
    change the last bits. *)
Theorem renamed_address_same_terms (lg : float -> float) (O1 O2 : SetOrder)
  (f : pychar -> pychar) (address chain1 chain2 : pystr) :
  (forall x y, f x = f y -> x = y) ->
  ((exists fv1 fv2,
       @get_features64 lg O1 address chain1 = Ok fv1 /\
       @get_features64 lg O2 (map f address) chain2 = Ok fv2 /\
       col_length64 fv1 = col_length64 fv2 /\
       col_entropy64 fv1 = fsum (@terms64 lg O1 address) /\
       col_entropy64 fv2 = fsum (@terms64 lg O2 (map f address)) /\
       Permutation (@terms64 lg O1 address) (@terms64 lg O2 (map f address))) \/
   (@get_features64 lg O1 address chain1 = Raise ValueError /\
    @get_features64 lg O2 (map f address) chain2 = Raise ValueError)) /\
  ((len address <= 256)%nat ->
   exists fv1 fv2,
     @get_features64 lg O1 address chain1 = Ok fv1 /\
     @get_features64 lg O2 (map f address) chain2 = Ok fv2 /\
     col_length64 fv1 = col_length64 fv2) /\
  (exists r1 r2,
     @get_features O1 address chain1 = Ok r1 /\
     @get_features O2 (map f address) chain2 = Ok r2 /\
     col_entropy r2 = col_entropy r1 /\
     col_length r2 = col_length r1).
Proof.
  intros Hinj.
  destruct (get_features64_alike lg O1 O2 address (map f address) chain1 chain2
              (eq_sym (length_map f address))
              (quotients64_map_injective O1 O2 f address Hinj))
    as (Halike & Hsmall).
  split; [exact Halike|]. split; [exact Hsmall|].
  now apply exact_entropy_renaming.
Qed.

Lemma renamed_address_same_terms_witness :
  exists fv1 fv2,
    @get_features64 log2_at_samples by_last_occurrence
      (str "111APz") (str "Bitcoin") = Ok fv1 /\
    @get_features64 log2_at_samples backwards
      (str "222BQ{") (str "Bitcoin") = Ok fv2 /\
    col_length64 fv1 = col_length64 fv2.
Proof.
  destruct (renamed_address_same_terms log2_at_samples
              by_last_occurrence backwards N.succ
              (str "111APz") (str "Bitcoin") (str "Bitcoin")
              (fun x y => proj1 (N.succ_inj_wd x y)))
    as (_ & Hsmall & _).
  apply Hsmall. vm_compute. repeat constructor.
Defined.
